(** * serverless-newrelic-lambda-layers: the plugin of [src/index.ts]

    A shallow embedding of [NewRelicLambdaLayerPlugin]: the instrumentation
    planner ([addLayer] with [getLayerArn], [getHandlerWrapper] and
    [updatePackageExcludes]), its driver [run], and the log subscription
    filter reconciler ([ensureLogStreamFilter] down to
    [addSubscriptionFilter] / [removeSubscriptionFilter]) with its two
    drivers. *)

From Stdlib Require Import ZArith Ascii String List Bool Lia.
From stdpp Require Import base option list strings gmap.

Set Warnings "-register-all".
Open Scope string_scope.

(** ** JavaScript values and the builtins the plugin calls *)

Module JS.

(** What the manifest (YAML) and a parsed JSON body can hold, plus
    [undefined].  Numbers are kept to the integers. *)
Inductive value : Type :=
| VUndefined
| VNull
| VBool (b : bool)
| VNum (n : Z)
| VStr (s : string)
| VArr (items : list value)
| VObj (fields : list (string * value)).

(** ToBoolean, as used by [!x], [x ? a : b], [x || y] and [x && y]. *)
Definition truthy (v : value) : bool :=
  match v with
  | VUndefined | VNull => false
  | VBool b => b
  | VNum n => negb (n =? 0)%Z
  | VStr s => negb (s =? "")
  | VArr _ | VObj _ => true
  end.

(** [x || y] *)
Definition or_else (x y : value) : value := if truthy x then x else y.

(** [typeof v === "string"], [typeof v === "boolean"], [_.isArray v] *)
Definition is_string (v : value) : bool :=
  match v with VStr _ => true | _ => false end.

Definition is_boolean (v : value) : bool :=
  match v with VBool _ => true | _ => false end.

Definition isArray (v : value) : bool :=
  match v with VArr _ => true | _ => false end.

(** [v === s] for a string [s]: strict equality never converts. *)
Definition strict_eq_string (s : string) (v : value) : bool :=
  match v with VStr t => t =? s | _ => false end.

(** [Array.prototype.indexOf]: the first index whose element passes, or -1. *)
Fixpoint indexOf_from {A} (p : A -> bool) (l : list A) (i : Z) : Z :=
  match l with
  | [] => (-1)%Z
  | x :: l' => if p x then i else indexOf_from p l' (i + 1)%Z
  end.

Definition indexOf {A} (p : A -> bool) (l : list A) : Z := indexOf_from p l 0%Z.

(** A destructuring default [x = d] applies when the property is [undefined]. *)
Definition default_to (d v : value) : value :=
  match v with VUndefined => d | _ => v end.

(** *** [String.prototype.match] with a string pattern

    [s.match(p)] compiles [p] with [new RegExp(p)] and searches [s] for it.
    The development interprets the patterns made of ordinary characters,
    [.], [^] and [$]; on a pattern that uses any other syntax character it
    gives no answer ([None]).  A character is one code unit. *)

Inductive atom : Type :=
| Lit (c : ascii)     (* an ordinary character *)
| AnyChar             (* .  any character but a line terminator *)
| Bol                 (* ^  start of input *)
| Eol.                (* $  end of input *)

(** The SyntaxCharacters of the pattern grammar, [^ $ \ . * + ? ( ) [ ] { } |],
    less the three that are interpreted. *)
Definition uninterpreted (c : ascii) : bool :=
  existsb (Ascii.eqb c)
    ["\"; "*"; "+"; "?"; "("; ")"; "["; "]"; "{"; "}"; "|"]%char.

Definition atom_of (c : ascii) : option atom :=
  if uninterpreted c then None
  else if Ascii.eqb c "^" then Some Bol
  else if Ascii.eqb c "$" then Some Eol
  else if Ascii.eqb c "." then Some AnyChar
  else Some (Lit c).

Fixpoint compile (p : string) : option (list atom) :=
  match p with
  | EmptyString => Some []
  | String c p' =>
      match atom_of c, compile p' with
      | Some a, Some r => Some (a :: r)
      | _, _ => None
      end
  end.

Definition line_terminator (c : ascii) : bool :=
  Ascii.eqb c "010" || Ascii.eqb c "013".

(** Does the pattern match at the head of [s]?  [at_start] tells whether the
    head of [s] is the start of the input. *)
Fixpoint match_here (r : list atom) (at_start : bool) (s : string) : bool :=
  match r with
  | [] => true
  | Lit c :: r' =>
      match s with
      | String d s' => Ascii.eqb c d && match_here r' false s'
      | EmptyString => false
      end
  | AnyChar :: r' =>
      match s with
      | String d s' => negb (line_terminator d) && match_here r' false s'
      | EmptyString => false
      end
  | Bol :: r' => at_start && match_here r' at_start s
  | Eol :: r' =>
      match s with
      | EmptyString => match_here r' at_start s
      | String _ _ => false
      end
  end.

(** The search tries every position, left to right. *)
Fixpoint search (r : list atom) (at_start : bool) (s : string) : bool :=
  match_here r at_start s ||
  match s with
  | EmptyString => false
  | String _ s' => search r false s'
  end.

(** [s.match(p)] is truthy (an array) or [null]. *)
Definition String_match (s p : string) : option bool :=
  r ← compile p; Some (search r true s).

(** A pattern converted from a value: [undefined] is the empty pattern,
    other primitives are their text.  Numbers, arrays and objects are left
    out. *)
Definition pattern_of (v : value) : option string :=
  match v with
  | VUndefined => Some ""
  | VNull => Some "null"
  | VBool true => Some "true"
  | VBool false => Some "false"
  | VStr s => Some s
  | VNum _ | VArr _ | VObj _ => None
  end.

(** Substring search, to state what a pattern of ordinary characters does. *)
Fixpoint starts_with (p s : string) : bool :=
  match p with
  | EmptyString => true
  | String c p' =>
      match s with
      | String d s' => Ascii.eqb c d && starts_with p' s'
      | EmptyString => false
      end
  end.

Fixpoint includes (p s : string) : bool :=
  starts_with p s ||
  match s with
  | EmptyString => false
  | String _ s' => includes p s'
  end.

Definition ordinary (c : ascii) : bool :=
  negb (existsb (Ascii.eqb c)
    ["^"; "$"; "\"; "."; "*"; "+"; "?"; "("; ")"; "["; "]"; "{"; "}"; "|"]%char).

Fixpoint plain (p : string) : bool :=
  match p with
  | EmptyString => true
  | String c p' => ordinary c && plain p'
  end.

(** What a pattern of ordinary characters compiles to. *)
Fixpoint lits (p : string) : list atom :=
  match p with
  | EmptyString => []
  | String c p' => Lit c :: lits p'
  end.

(** *** Property reads and [_.get]

    Own properties only: the methods a value inherits are not values of
    the model, and the plugin reads none of them. *)

Definition digit_of (c : ascii) : option nat :=
  let n := nat_of_ascii c in
  if (48 <=? n)%nat && (n <=? 57)%nat then Some (n - 48)%nat else None.

Fixpoint digits_from (acc : nat) (s : string) : option nat :=
  match s with
  | EmptyString => Some acc
  | String c s' => d ← digit_of c; digits_from (10 * acc + d)%nat s'
  end.

(** A property key that is an array index: decimal, no leading zero. *)
Definition index_of_key (k : string) : option nat :=
  match k with
  | EmptyString => None
  | String "0" EmptyString => Some 0%nat
  | String "0" _ => None
  | _ => digits_from 0 k
  end.

Fixpoint assoc (k : string) (fields : list (string * value)) : option value :=
  match fields with
  | [] => None
  | (k', v) :: rest => if k' =? k then Some v else assoc k rest
  end.

(** [v[k]] for a [v] that is neither [undefined] nor [null]. *)
Definition get_prop (v : value) (k : string) : value :=
  match v with
  | VObj fields => default VUndefined (assoc k fields)
  | VArr items =>
      match index_of_key k with
      | Some i => nth i items VUndefined
      | None => if k =? "length" then VNum (Z.of_nat (length items)) else VUndefined
      end
  | VStr s =>
      match index_of_key k with
      | Some i =>
          match String.get i s with
          | Some c => VStr (String c EmptyString)
          | None => VUndefined
          end
      | None => if k =? "length" then VNum (Z.of_nat (String.length s)) else VUndefined
      end
  | _ => VUndefined
  end.

Definition nullish (v : value) : bool :=
  match v with VUndefined | VNull => true | _ => false end.

(** lodash [baseGet]: walk the keys while the object is not nullish; the
    result counts only when every key was consumed. *)
Fixpoint baseGet (object : value) (path : list string) : value :=
  match path with
  | [] => object
  | k :: rest => if nullish object then VUndefined else baseGet (get_prop object k) rest
  end.

(** lodash [_.get(object, path)] for a path that is not a plain property
    name: [whole] is the path as written, [keys] what [stringToPath] makes
    of it.  When the object has a property named [whole], that property is
    read instead ([isKey]). *)
Definition get (object : value) (whole : string) (keys : list string) : value :=
  if nullish object then VUndefined
  else
    match object with
    | VObj fields =>
        match assoc whole fields with
        | Some v => v
        | None => match keys with [] => VUndefined | _ => baseGet object keys end
        end
    | _ => match keys with [] => VUndefined | _ => baseGet object keys end
    end.

End JS.

(** ** The manifest: function definitions, plugin configuration, service *)

Module Manifest.
Import JS.

(** [funcDef.package]; only [exclude] is read. *)
Record Package : Type := mkPackage {
  pkg_exclude : option (list value);
  pkg_rest : list (string * value)
}.

(** One entry of [service.functions].  A field that may be [undefined] and
    is used as a container is an [option]. *)
Record FuncDef : Type := mkFuncDef {
  fd_name : option string;
  fd_environment : option (gmap string value);
  fd_handler : value;
  fd_runtime : value;
  fd_layers : option (list value);
  fd_package : option Package
}.

(** [service.custom.newRelic]; an absent key reads [undefined]. *)
Record Config : Type := mkConfig {
  accountId : value;
  trustedAccountKey : value;
  layerArn : value;
  exclude : value;
  prepend : value;
  debug : value;
  serverlessModeEnabled : value
}.

(** A parsed version string: [major.minor.patch] and prerelease tags. *)
Record Version : Type := mkVersion {
  major : N;
  minor : N;
  patch : N;
  prerelease : list string
}.

(** What the plugin reads from [this.serverless]. *)
Record Serverless : Type := mkServerless {
  version : Version;
  plugins : option (list string);
  region : value;
  provider_runtime : value;
  enterpriseEnabled : value;
  config : Config;
  functions : list (string * FuncDef)
}.

(** [environment.KEY] *)
Definition env_get (environment : gmap string value) (key : string) : value :=
  default VUndefined (environment !! key).

Definition name_value (name : option string) : value :=
  match name with Some s => VStr s | None => VUndefined end.

(** A name inside a template literal. *)
Definition name_text (name : option string) : string :=
  match name with Some s => s | None => "undefined" end.

(** [const { exclude = [] } = this.config;
     _.isArray(exclude) && exclude.indexOf(funcName) !== -1] *)
Definition excluded (cfg : Config) (funcName : string) : bool :=
  match default_to (VArr []) (exclude cfg) with
  | VArr items => negb (indexOf (strict_eq_string funcName) items =? -1)%Z
  | _ => false
  end.

(** [semver.lt(version, "1.34.0")]: a prerelease of 1.34.0 is lower. *)
Definition lt_1_34_0 (v : Version) : bool :=
  match (major v ?= 1)%N with
  | Lt => true
  | Gt => false
  | Eq =>
      match (minor v ?= 34)%N with
      | Lt => true
      | Gt => false
      | Eq =>
          match patch v, prerelease v with
          | 0%N, _ :: _ => true
          | _, _ => false
          end
      end
  end.

End Manifest.

(** ** The instrumentation planner *)

Module Planner.
Import JS Manifest.

Inductive error : Type :=
| RequestError      (* the HTTP request failed *)
| SyntaxError       (* JSON.parse threw *)
| TypeError.

(** How a promise settles. *)
Inductive settled (A : Type) : Type :=
| Resolved (a : A)
| Rejected (e : error).
Arguments Resolved {A} a.
Arguments Rejected {A} e.

(** One exchange with the layer lookup service: the request fails, or a
    response arrives.  [JSON.parse] is the platform's, so a body is carried
    as what [JSON.parse] makes of it: [None] when it throws. *)
Inductive exchange : Type :=
| Failed
| Replied (body : option value).

(** [this.serverless.cli.log] lines. *)
Inductive log_line : Type :=
| LogUnsupportedVersion
| LogPlugins (plugins : list string)
| LogWebpackOrder
| LogAddingLayer (funcName : string)
| LogNoRegion
| LogNoAccountId (funcName : string)
| LogUnsupportedRuntime (runtime : value)
| LogExcluded (funcName : string)
| LogAlreadySpecified (funcName : string).

(** How one call of [addLayer] ended. *)
Inductive ending : Type :=
| Skipped             (* an early [return] *)
| Failure (e : error) (* the returned promise rejects *)
| Completed.

Definition wrapper_node : string := "newrelic-lambda-wrapper.handler".
Definition wrapper_python : string := "newrelic_lambda_wrapper.handler".
Definition exclude_entry : string := "!newrelic-lambda-wrapper.handler".

Definition supported_runtimes : list string :=
  ["nodejs12.x"; "nodejs10.x"; "nodejs8.10"; "python2.7"; "python3.6"; "python3.7"].

Definition layer_arn_path : string :=
  "Layers[0].LatestMatchingVersion.LayerVersionArn".

Definition layer_arn_keys : list string :=
  ["Layers"; "0"; "LatestMatchingVersion"; "LayerVersionArn"].

(** [getHandlerWrapper(runtime, handler)] *)
Definition getHandlerWrapper (enterprise : value) (runtime : string) (handler : value)
  : option value :=
  if negb (indexOf (String.eqb runtime) ["nodejs8.10"; "nodejs10.x"; "nodejs12.x"] =? -1)%Z
     || ((runtime =? "nodejs10.x") && truthy (default_to (VBool false) enterprise))
  then Some (VStr wrapper_node)
  else
    m ← String_match runtime "python";
    Some (if m : bool then VStr wrapper_python else handler).

(** [updatePackageExcludes(runtime, pkg)] *)
Definition updatePackageExcludes (runtime : string) (pkg : Package) : option Package :=
  m ← String_match runtime "nodejs";
  Some (if negb m then pkg
        else
          let exclude := default [] (pkg_exclude pkg) in
          let exclude := (exclude ++ [VStr exclude_entry])%list in
          {| pkg_exclude := Some exclude; pkg_rest := pkg_rest pkg |}).

(** The [.then] callback of [getLayerArn] on a response, and the promise as
    a whole on an exchange. *)
Definition getLayerArn_of (ex : exchange) : settled value :=
  match ex with
  | Failed => Rejected RequestError
  | Replied None => Rejected SyntaxError
  | Replied (Some awsResp) => Resolved (JS.get awsResp layer_arn_path layer_arn_keys)
  end.

(** [layers.filter(layer => typeof layer === "string" && layer.match(layerArn))];
    the pattern is compiled at each string layer, so a list without strings
    never looks at it. *)
Fixpoint newRelicLayers (pattern : option string) (layers : list value)
  : option (list value) :=
  match layers with
  | [] => Some []
  | layer :: rest =>
      keep ← match layer with
             | VStr s => pattern ≫= String_match s
             | _ => Some false
             end;
      kept ← newRelicLayers pattern rest;
      Some (if keep : bool then layer :: kept else kept)
  end.

(** [x ? x : fallback] *)
Definition pick (x fallback : value) : value := if truthy x then x else fallback.

(** [environment.KEY = environment.KEY ? environment.KEY : fallback] *)
Definition keep_or (key : string) (fallback : value) (environment : gmap string value)
  : gmap string value :=
  <[key := pick (env_get environment key) fallback]> environment.

(** The environment assignments of [addLayer], from
    [environment.NEW_RELIC_LAMBDA_HANDLER = handler] to
    [environment.NEW_RELIC_SERVERLESS_MODE_ENABLED = ...]. *)
Definition assign_environment (cfg : Config) (name : option string) (funcName : string)
    (handler : value) (environment : gmap string value) : gmap string value :=
  let environment := <["NEW_RELIC_LAMBDA_HANDLER" := handler]> environment in
  let environment := keep_or "NEW_RELIC_LOG" (VStr "stdout") environment in
  let environment :=
    keep_or "NEW_RELIC_LOG_LEVEL"
      (if truthy (debug cfg) then VStr "debug" else VStr "info") environment in
  let environment := keep_or "NEW_RELIC_NO_CONFIG_FILE" (VStr "true") environment in
  let environment :=
    keep_or "NEW_RELIC_APP_NAME" (or_else (name_value name) (VStr funcName))
      environment in
  let environment := keep_or "NEW_RELIC_ACCOUNT_ID" (accountId cfg) environment in
  let environment :=
    keep_or "NEW_RELIC_TRUSTED_ACCOUNT_KEY"
      (pick (env_get environment "NEW_RELIC_ACCOUNT_ID") (trustedAccountKey cfg))
      environment in
  <["NEW_RELIC_SERVERLESS_MODE_ENABLED" :=
      if truthy (VStr "true")
      then env_get environment "NEW_RELIC_SERVERLESS_MODE_ENABLED"
      else if truthy (VStr "true")
      then serverlessModeEnabled cfg
      else VStr "false"]> environment.

(** The same eight assignments with every read taken from the environment
    as [addLayer] found it; shown equal to [assign_environment] below. *)
Definition settled_environment (cfg : Config) (name : option string) (funcName : string)
    (handler : value) (environment : gmap string value) : gmap string value :=
  let account := pick (env_get environment "NEW_RELIC_ACCOUNT_ID") (accountId cfg) in
  <["NEW_RELIC_SERVERLESS_MODE_ENABLED" :=
      env_get environment "NEW_RELIC_SERVERLESS_MODE_ENABLED"]>
  (<["NEW_RELIC_TRUSTED_ACCOUNT_KEY" :=
      pick (env_get environment "NEW_RELIC_TRUSTED_ACCOUNT_KEY")
           (pick account (trustedAccountKey cfg))]>
  (<["NEW_RELIC_ACCOUNT_ID" := account]>
  (<["NEW_RELIC_APP_NAME" :=
      pick (env_get environment "NEW_RELIC_APP_NAME")
           (or_else (name_value name) (VStr funcName))]>
  (<["NEW_RELIC_NO_CONFIG_FILE" :=
      pick (env_get environment "NEW_RELIC_NO_CONFIG_FILE") (VStr "true")]>
  (<["NEW_RELIC_LOG_LEVEL" :=
      pick (env_get environment "NEW_RELIC_LOG_LEVEL")
           (if truthy (debug cfg) then VStr "debug" else VStr "info")]>
  (<["NEW_RELIC_LOG" := pick (env_get environment "NEW_RELIC_LOG") (VStr "stdout")]>
  (<["NEW_RELIC_LAMBDA_HANDLER" := handler]> environment))))))).

(** The body of [addLayer] once the layer ARN is known (from
    [const newRelicLayers = ...] to the end): the definition as the
    mutations leave it, and whether the "already specifies" line was
    logged.  [None] only where a pattern is outside what [String_match]
    interprets. *)
Definition instrument (sls : Serverless) (funcName : string) (funcDef : FuncDef)
    (runtime : string) (layerArn : value) : option (FuncDef * bool) :=
  let cfg := config sls in
  let name := fd_name funcDef in
  let environment := default ∅ (fd_environment funcDef) in
  let handler := fd_handler funcDef in
  let layers := default [] (fd_layers funcDef) in
  let pkg := default (mkPackage None []) (fd_package funcDef) in
  found ← newRelicLayers (pattern_of layerArn) layers;
  let already := negb (length found =? 0)%nat in
  let fd_layers' :=
    if already then fd_layers funcDef
    else if is_boolean (prepend cfg) && truthy (prepend cfg)
    then Some (layerArn :: layers)
    else Some (layers ++ [layerArn])%list in
  let environment := assign_environment cfg name funcName handler environment in
  handler' ← getHandlerWrapper (enterpriseEnabled sls) runtime handler;
  pkg' ← updatePackageExcludes runtime pkg;
  Some ({| fd_name := name;
           fd_environment := Some environment;
           fd_handler := handler';
           fd_runtime := fd_runtime funcDef;
           fd_layers := fd_layers';
           fd_package := Some pkg' |},
        already).

Section WithLookup.

(** The lookup service: runtime and region to an exchange. *)
Variable lookup : string -> value -> exchange.

(** [getLayerArn(runtime, region)] *)
Definition getLayerArn (runtime : string) (region : value) : settled value :=
  getLayerArn_of (lookup runtime region).

(** [this.config.layerArn ? this.config.layerArn
                          : await this.getLayerArn(runtime, region)] *)
Definition resolve (sls : Serverless) (runtime : string) : settled value :=
  if truthy (layerArn (config sls)) then Resolved (layerArn (config sls))
  else getLayerArn runtime (region sls).

(** [addLayer(funcName, funcDef)]: how the call ended, the definition as
    it left it, and the lines it logged. *)
Definition addLayer (sls : Serverless) (funcName : string) (funcDef : FuncDef)
  : option (ending * FuncDef * list log_line) :=
  let cfg := config sls in
  let log := [LogAddingLayer funcName] in
  if negb (truthy (region sls)) then Some (Skipped, funcDef, (log ++ [LogNoRegion])%list)
  else
  let environment := default ∅ (fd_environment funcDef) in
  let runtime := default_to (provider_runtime sls) (fd_runtime funcDef) in
  if negb (truthy (accountId cfg))
     && negb (truthy (env_get environment "NEW_RELIC_ACCOUNT_ID"))
  then Some (Skipped, funcDef, (log ++ [LogNoAccountId funcName])%list)
  else
  match runtime with
  | VStr runtime =>
    if (indexOf (String.eqb runtime) supported_runtimes =? -1)%Z
    then Some (Skipped, funcDef, (log ++ [LogUnsupportedRuntime (VStr runtime)])%list)
    else if excluded cfg funcName
    then Some (Skipped, funcDef, (log ++ [LogExcluded funcName])%list)
    else
    match resolve sls runtime with
    | Rejected e => Some (Failure e, funcDef, log)
    | Resolved layerArn =>
        r ← instrument sls funcName funcDef runtime layerArn;
        Some (Completed, r.1,
              if r.2 : bool then (log ++ [LogAlreadySpecified funcName])%list else log)
    end
  | _ => Some (Skipped, funcDef, (log ++ [LogUnsupportedRuntime runtime])%list)
  end.

(** [Object.keys(funcs).forEach(async funcName => ...)]: one call of
    [addLayer] per function, each on its own definition; a rejected call is
    dropped and the next function is taken up. *)
Fixpoint forEach_addLayer (sls : Serverless) (funcs : list (string * FuncDef))
  : option (list (string * ending * FuncDef) * list log_line) :=
  match funcs with
  | [] => Some ([], [])
  | (funcName, funcDef) :: rest =>
      r ← addLayer sls funcName funcDef;
      rs ← forEach_addLayer sls rest;
      let '(how, funcDef', log) := r in
      Some ((funcName, how, funcDef') :: rs.1, (log ++ rs.2)%list)
  end.

(** How [run] ended. *)
Inductive run_ending : Type :=
| RunReturned                    (* an early [return]: no function was taken up *)
| RunThrew (e : error)
| RunDispatched (calls : list (string * ending * FuncDef)).

Definition webpack_after (plugins : list string) : bool :=
  (indexOf (String.eqb "serverless-newrelic-layers") plugins
     <? indexOf (String.eqb "serverless-webpack") plugins)%Z.

(** [run()].  The getter [this.functions] applies [Object.assign] to the
    list of one-key objects, which throws when there is none. *)
Definition run (sls : Serverless) : option (run_ending * list log_line) :=
  if lt_1_34_0 (version sls) then Some (RunReturned, [LogUnsupportedVersion])
  else
    let plugins := default [] (plugins sls) in
    let log := [LogPlugins plugins] in
    if webpack_after plugins then Some (RunReturned, (log ++ [LogWebpackOrder])%list)
    else
      match functions sls with
      | [] => Some (RunThrew TypeError, log)
      | funcs =>
          rs ← forEach_addLayer sls funcs;
          Some (RunDispatched rs.1, (log ++ rs.2)%list)
      end.

End WithLookup.

End Planner.

(** ** The log subscription filter reconciler

    The provider client is a black box: [awsProvider.request] issues a call
    and hands back a promise that the provider settles later.  A [task] is
    a piece of plugin code up to the points where it waits on such a
    promise; the event loop below runs tasks to their next wait and lets
    the provider settle the pending calls in any order. *)

Module Reconciler.
Import JS Manifest.

(** [awsProvider.request(service, method, params)] *)
Inductive call : Type :=
| GetFunction (FunctionName : value)
| DescribeSubscriptionFilters (logGroupName : string)
| PutSubscriptionFilter (destinationArn : value) (filterName filterPattern logGroupName : string)
| DeleteSubscriptionFilter (filterName logGroupName : string).

(** How the provider settles a call. *)
Inductive response : Type :=
| Fulfilled (res : value)
| Threw (err : value).

Inductive log_line : Type :=
| LogConfiguring (name : option string)
| LogRemoving (funcName : string)
| LogProviderError (message : value).

Inductive task : Type :=
| Ret (v : value)                              (* resolve with [v] *)
| Raise (err : value)                          (* throw, or reject with [err] *)
| Emit (line : log_line) (k : task)            (* [cli.log], then go on *)
| Await (c : call) (k : response -> task)      (* issue [c] now, go on when it settles *)
| Fork (child : task) (k : task).              (* start [child], do not wait for it *)

(** [p.then(f)] and [p.catch(g)].  A forked child is not part of the chain. *)
Fixpoint bind (t : task) (f : value -> task) : task :=
  match t with
  | Ret v => f v
  | Raise err => Raise err
  | Emit line k => Emit line (bind k f)
  | Await c k => Await c (fun r => bind (k r) f)
  | Fork child k => Fork child (bind k f)
  end.

Fixpoint catch (t : task) (g : value -> task) : task :=
  match t with
  | Ret v => Ret v
  | Raise err => g err
  | Emit line k => Emit line (catch k g)
  | Await c k => Await c (fun r => catch (k r) g)
  | Fork child k => Fork child (catch k g)
  end.

(** [xs.map(async x => f(x))] with the results dropped by the caller: the
    bodies start one after the other, none is waited for. *)
Fixpoint fork_each {A} (f : A -> task) (xs : list A) (k : task) : task :=
  match xs with
  | [] => k
  | x :: xs' => Fork (f x) (fork_each f xs' k)
  end.

(** The promise of a call resolves or rejects as the provider settles it. *)
Definition settling (r : response) : task :=
  match r with Fulfilled res => Ret res | Threw err => Raise err end.

Definition request (c : call) : task := Await c settling.

(** A [TypeError] object: it has no [providerError]. *)
Definition type_error : value := VObj [("name", VStr "TypeError")].

(** [o.k] where reading a property of [undefined] or [null] throws. *)
Definition read (o : value) (k : string) (next : value -> task) : task :=
  if nullish o then Raise type_error else next (get_prop o k).

(** [err => this.serverless.cli.log(err.providerError.message)] *)
Definition log_provider_error (err : value) : task :=
  read err "providerError" (fun providerError =>
  read providerError "message" (fun message =>
  Emit (LogProviderError message) (Ret VUndefined))).

Definition reserved_name : string := "NewRelicLogStreaming".
Definition expected_pattern : string := "NR_LAMBDA_MONITORING".
Definition ingestion_function : string := "newrelic-log-ingestion".

Definition log_group (funcName : option string) : string :=
  "/aws/lambda/" ++ name_text funcName.

(** [removeSubscriptionFilter(funcName)] *)
Definition removeSubscriptionFilter (funcName : option string) : task :=
  catch (request (DeleteSubscriptionFilter reserved_name (log_group funcName)))
        log_provider_error.

(** [addSubscriptionFilter(funcName, destinationArn)] *)
Definition addSubscriptionFilter (funcName : option string) (destinationArn : value) : task :=
  catch (request (PutSubscriptionFilter destinationArn reserved_name expected_pattern
                    (log_group funcName)))
        log_provider_error.

(** [res.filter(filter => filter.KEY === wanted)] when [keep] and
    [... !== wanted] otherwise; the callback throws on an element that is
    [undefined] or [null]. *)
Fixpoint filter_by (key wanted : string) (keep : bool) (items : list value)
  : option (list value) :=
  match items with
  | [] => Some []
  | item :: rest =>
      if nullish item then None
      else
        kept ← filter_by key wanted keep rest;
        Some (if Bool.eqb (strict_eq_string wanted (get_prop item key)) keep
              then item :: kept else kept)
  end.

(** The [.then] callback of [describeSubscriptionFilters]. *)
Definition reconcile (funcName : option string) (destinationArn : value) (res : value)
  : task :=
  match res with
  | VArr items =>
      match filter_by "filterName" reserved_name true items with
      | None => Raise type_error
      | Some existingFilters =>
          if negb (length existingFilters =? 0)%nat then
            match filter_by "filterPattern" expected_pattern false existingFilters with
            | None => Raise type_error
            | Some stale =>
                fork_each (fun _ => removeSubscriptionFilter funcName) stale
                  (fork_each (fun _ => addSubscriptionFilter funcName destinationArn) stale
                     (Ret VUndefined))
            end
          else addSubscriptionFilter funcName destinationArn
      end
  | _ => Raise type_error          (* [res.filter] is not a function *)
  end.

(** [describeSubscriptionFilters(funcName, destinationArn)] *)
Definition describeSubscriptionFilters (funcName : option string) (destinationArn : value)
  : task :=
  catch (bind (request (DescribeSubscriptionFilters (log_group funcName)))
              (reconcile funcName destinationArn))
        log_provider_error.

(** [getDestinationArn(funcName)] *)
Definition getDestinationArn (funcName : option string) : task :=
  catch (bind (request (GetFunction (VStr ingestion_function)))
              (fun res =>
                 read res "Configuration" (fun configuration =>
                 read configuration "FunctionArn" (fun destinationArn =>
                 describeSubscriptionFilters funcName destinationArn))))
        log_provider_error.

(** [ensureLogStreamFilter(funcName)] *)
Definition ensureLogStreamFilter (funcName : option string) : task :=
  catch (bind (request (GetFunction (name_value funcName)))
              (fun _ => getDestinationArn funcName))
        log_provider_error.

(** [this.functions], then the body of the driver. *)
Definition with_functions (sls : Serverless) (body : list (string * FuncDef) -> task) : task :=
  match functions sls with
  | [] => Raise type_error
  | funcs => body funcs
  end.

(** [addLogStreamFilters()] *)
Definition addLogStreamFilters (sls : Serverless) : task :=
  with_functions sls (fun funcs =>
    fork_each (fun '(funcName, funcDef) =>
                 if excluded (config sls) funcName then Ret VUndefined
                 else
                   let name := fd_name funcDef in
                   Emit (LogConfiguring name)
                     (bind (ensureLogStreamFilter name) (fun _ => Ret VUndefined)))
              funcs (Ret VUndefined)).

(** [removeLogStreamFilters()] *)
Definition removeLogStreamFilters (sls : Serverless) : task :=
  with_functions sls (fun funcs =>
    fork_each (fun '(funcName, funcDef) =>
                 let name := fd_name funcDef in
                 Emit (LogRemoving funcName)
                   (bind (removeSubscriptionFilter name) (fun _ => Ret VUndefined)))
              funcs (Ret VUndefined)).

(** *** The event loop *)

Inductive event : Type :=
| Issued (id : nat) (c : call)
| Settled (id : nat) (r : response)
| Logged (line : log_line)
| Unhandled (err : value).

Record state : Type := mkState {
  next_id : nat;
  pending : list (nat * (response -> task));
  trace : list event
}.

Definition initial : state := mkState 0 [] [].

Definition record (e : event) (s : state) : state :=
  mkState (next_id s) (pending s) (trace s ++ [e])%list.

(** Run a task until it waits, ends or throws. *)
Fixpoint run_sync (t : task) (s : state) : state :=
  match t with
  | Ret _ => s
  | Raise err => record (Unhandled err) s
  | Emit line k => run_sync k (record (Logged line) s)
  | Await c k =>
      mkState (S (next_id s)) (pending s ++ [(next_id s, k)])%list
              (trace s ++ [Issued (next_id s) c])%list
  | Fork child k => run_sync k (run_sync child s)
  end.

Fixpoint take_pending (id : nat) (ps : list (nat * (response -> task)))
  : option ((response -> task) * list (nat * (response -> task))) :=
  match ps with
  | [] => None
  | (id', k) :: rest =>
      if (id' =? id)%nat then Some (k, rest)
      else
        match take_pending id rest with
        | Some (k', rest') => Some (k', (id', k) :: rest')
        | None => None
        end
  end.

(** The provider settles call [id] with [r]; the code waiting on it runs
    to its next wait.  Settling a call that is not pending does nothing. *)
Definition settle (s : state) (choice : nat * response) : state :=
  let '(id, r) := choice in
  match take_pending id (pending s) with
  | None => s
  | Some (k, rest) =>
      run_sync (k r) (mkState (next_id s) rest (trace s ++ [Settled id r])%list)
  end.

(** A schedule is the provider's sequence of choices. *)
Definition exec (schedule : list (nat * response)) (s : state) : state :=
  fold_left settle schedule s.

Definition start (t : task) : state := run_sync t initial.

Definition issued_call (e : event) : option call :=
  match e with Issued _ c => Some c | _ => None end.

(** The calls issued along a trace, in order. *)
Definition issued (tr : list event) : list call := omap issued_call tr.

(** *** What a task can issue *)

(** Every call the task can ever issue, now or after any response,
    satisfies [P]. *)
Inductive within (P : call -> Prop) : task -> Prop :=
| within_Ret v : within P (Ret v)
| within_Raise err : within P (Raise err)
| within_Emit line k : within P k -> within P (Emit line k)
| within_Await c k : P c -> (forall r, within P (k r)) -> within P (Await c k)
| within_Fork child k : within P child -> within P k -> within P (Fork child k).

(** A task that issues nothing, whatever happens. *)
Definition silent : task -> Prop := within (fun _ => False).

(** Every code waiting on a pending call stays within [P]. *)
Definition pending_within (P : call -> Prop) (s : state) : Prop :=
  Forall (fun p => forall r, within P (p.2 r)) (pending s).

(** The calls a task issues before it first gives control back. *)
Fixpoint sync_calls (t : task) : list call :=
  match t with
  | Ret _ | Raise _ => []
  | Emit _ k => sync_calls k
  | Await c _ => [c]
  | Fork child k => (sync_calls child ++ sync_calls k)%list
  end.

(** The calls made on behalf of the function named [name]. *)
Definition concerns (name : option string) (c : call) : Prop :=
  match c with
  | GetFunction v => v = name_value name \/ v = VStr ingestion_function
  | DescribeSubscriptionFilters lg
  | PutSubscriptionFilter _ _ _ lg
  | DeleteSubscriptionFilter _ lg => lg = log_group name
  end.

(** The call is made for a function of the service that [config.exclude]
    does not list. *)
Definition for_included_function (sls : Serverless) (c : call) : Prop :=
  exists funcName funcDef,
    In (funcName, funcDef) (functions sls)
    /\ excluded (config sls) funcName = false
    /\ concerns (fd_name funcDef) c.

(** The response of [getFunction] on the ingestion function, reduced to
    what the plugin reads. *)
Definition ingestion_response (arn : value) : value :=
  VObj [("Configuration", VObj [("FunctionArn", arn)])].

(** The provider's answers that take [ensureLogStreamFilter] to the point
    where the filters are known: the function exists, the ingestion
    function has ARN [arn], the log group has the filters [filters]. *)
Definition answers (found : value) (arn : value) (filters : list value)
  : list (nat * response) :=
  [(0, Fulfilled found); (1, Fulfilled (ingestion_response arn));
   (2, Fulfilled (VArr filters))]%nat.

(** The events of such an execution up to the answer of
    [describeSubscriptionFilters]. *)
Definition described (name : option string) (found arn : value) (filters : list value)
  : list event :=
  [Issued 0 (GetFunction (name_value name));
   Settled 0 (Fulfilled found);
   Issued 1 (GetFunction (VStr ingestion_function));
   Settled 1 (Fulfilled (ingestion_response arn));
   Issued 2 (DescribeSubscriptionFilters (log_group name));
   Settled 2 (Fulfilled (VArr filters))].

(** Sample answers of the provider. *)
Definition sample_name : option string := Some "svc-dev-hello".

Definition ingestion_arn : value :=
  VStr "arn:aws:lambda:us-east-1:123456789012:function:newrelic-log-ingestion".

Definition other_filter : value :=
  VObj [("filterName", VStr "audit"); ("filterPattern", VStr "")].

Definition old_filter : value :=
  VObj [("filterName", VStr "NewRelicLogStreaming"); ("filterPattern", VStr "OLD_PATTERN")].

End Reconciler.

(** ** Sample manifests and the predicates the statements use *)

Import JS Manifest.

Definition sample_arn : string :=
  "arn:aws:lambda:us-east-1:554407330061:layer:MainlandLayer:9".

(** Account id and an explicit layer ARN, [serverlessModeEnabled: false]. *)
Definition sample_config : Config :=
  mkConfig (VStr "1234567") VUndefined (VStr sample_arn) VUndefined VUndefined VUndefined
           (VBool false).

Definition sample_function : FuncDef :=
  mkFuncDef (Some "svc-dev-hello") None (VStr "index.handler") (VStr "nodejs12.x") None None.

Definition sample_service : Serverless :=
  mkServerless (mkVersion 1 60 0 []) None (VStr "us-east-1") VUndefined VUndefined
               sample_config [("hello", sample_function)].

Definition ruby_function : FuncDef :=
  mkFuncDef (Some "svc-dev-hello") None (VStr "index.handler") (VStr "ruby2.5")
            (Some [VStr "arn:aws:lambda:us-east-1:1:layer:other:1"]) None.

(** A body without the [Layers] path, as an API gateway sends on a refusal. *)
Definition forbidden_body : value := VObj [("message", VStr "Forbidden")].

(** No explicit layer ARN: the lookup service is asked. *)
Definition lookup_service : Serverless :=
  mkServerless (mkVersion 1 60 0 []) None (VStr "us-east-1") VUndefined VUndefined
               (mkConfig (VStr "1234567") VUndefined VUndefined VUndefined VUndefined
                         VUndefined VUndefined)
               [("hello", sample_function)].

(** A layer reference that is not a plain ARN: [$] is pattern syntax. *)
Definition latest_arn : string :=
  "arn:aws:lambda:us-east-1:554407330061:layer:MainlandLayer:$LATEST".

Definition latest_service : Serverless :=
  mkServerless (mkVersion 1 60 0 []) None (VStr "us-east-1") VUndefined VUndefined
               (mkConfig (VStr "1234567") VUndefined (VStr latest_arn) VUndefined
                         VUndefined VUndefined VUndefined)
               [].

Definition latest_function : FuncDef :=
  mkFuncDef (Some "svc-dev-hello") None (VStr "index.handler") (VStr "nodejs12.x")
            (Some [VStr latest_arn]) None.

(** The sample function with the configured layer already attached. *)
Definition layered_function : FuncDef :=
  mkFuncDef (Some "svc-dev-hello") None (VStr "index.handler") (VStr "nodejs12.x")
            (Some [VStr sample_arn]) None.

(** The sample service with the bundler plugin listed after this one. *)
Definition bundled_service : Serverless :=
  mkServerless (mkVersion 1 60 0 [])
               (Some ["serverless-newrelic-layers"; "serverless-webpack"])
               (VStr "us-east-1") VUndefined VUndefined
               sample_config [("hello", sample_function)].

(** Two functions, the second listed in [config.exclude]. *)
Definition internal_function : FuncDef :=
  mkFuncDef (Some "svc-dev-internal") None (VStr "internal.handler") (VStr "python3.7")
            None None.

Definition excluding_service : Serverless :=
  mkServerless (mkVersion 1 60 0 []) None (VStr "us-east-1") VUndefined VUndefined
               (mkConfig (VStr "1234567") VUndefined (VStr sample_arn)
                         (VArr [VStr "internal"]) VUndefined VUndefined VUndefined)
               [("hello", sample_function); ("internal", internal_function)].

(** The lookup service answering every request with one body. *)
Definition answering (body : option value) : string -> value -> Planner.exchange :=
  fun _ _ => Planner.Replied body.

(** The definition a call of [addLayer] left behind. *)
Definition left_by (r : option (Planner.ending * FuncDef * list Planner.log_line))
  : option FuncDef :=
  r ≫= fun x => Some x.1.2.

(** How a call of [addLayer] ended. *)
Definition ending_of (r : option (Planner.ending * FuncDef * list Planner.log_line))
  : option Planner.ending :=
  r ≫= fun x => Some x.1.1.

Definition env_of (funcDef : FuncDef) (key : string) : value :=
  env_get (default ∅ (fd_environment funcDef)) key.

Definition excludes_of (funcDef : FuncDef) : list value :=
  default [] (fd_package funcDef ≫= pkg_exclude).

(** One planner run and two in a row, as the definition they leave. *)
Definition plan_once (lookup : string -> value -> Planner.exchange) (sls : Serverless)
    (funcName : string) (funcDef : FuncDef) : option FuncDef :=
  left_by (Planner.addLayer lookup sls funcName funcDef).

Definition plan_twice (lookup : string -> value -> Planner.exchange) (sls : Serverless)
    (funcName : string) (funcDef : FuncDef) : option FuncDef :=
  plan_once lookup sls funcName funcDef ≫= plan_once lookup sls funcName.

(** [run] takes up every function: it calls [addLayer] once per function
    of the service. *)
Definition processes_every_function (lookup : string -> value -> Planner.exchange)
    (sls : Serverless) : Prop :=
  exists calls log,
    Planner.run lookup sls = Some (Planner.RunDispatched calls, log)
    /\ map (fun c => c.1.1) calls = map fst (functions sls).

(** The string layers a pattern of ordinary characters selects. *)
Definition layer_includes (p : string) (layer : value) : bool :=
  match layer with VStr s => includes p s | _ => false end.

(** The runtime [addLayer] works with: the function's own, or the
    provider's when it has none. *)
Definition effective_runtime (sls : Serverless) (funcDef : FuncDef) : value :=
  default_to (provider_runtime sls) (fd_runtime funcDef).

(** The four guards of [addLayer], all passed. *)
Definition guards_pass (sls : Serverless) (funcName : string) (funcDef : FuncDef) : bool :=
  truthy (region sls)
  && (truthy (accountId (config sls)) || truthy (env_of funcDef "NEW_RELIC_ACCOUNT_ID"))
  && match effective_runtime sls funcDef with
     | VStr runtime =>
         negb (indexOf (String.eqb runtime) Planner.supported_runtimes =? -1)%Z
     | _ => false
     end
  && negb (excluded (config sls) funcName).

(** The eight environment keys [addLayer] assigns. *)
Definition assigned_keys : list string :=
  ["NEW_RELIC_LAMBDA_HANDLER"; "NEW_RELIC_LOG"; "NEW_RELIC_LOG_LEVEL";
   "NEW_RELIC_NO_CONFIG_FILE"; "NEW_RELIC_APP_NAME"; "NEW_RELIC_ACCOUNT_ID";
   "NEW_RELIC_TRUSTED_ACCOUNT_KEY"; "NEW_RELIC_SERVERLESS_MODE_ENABLED"].

(** The service under another [trustedAccountKey]. *)
Definition with_trustedAccountKey (key : value) (sls : Serverless) : Serverless :=
  let cfg := config sls in
  mkServerless (version sls) (plugins sls) (region sls) (provider_runtime sls)
               (enterpriseEnabled sls)
               (mkConfig (accountId cfg) key (layerArn cfg) (exclude cfg) (prepend cfg)
                         (debug cfg) (serverlessModeEnabled cfg))
               (functions sls).


(** A lookup response that carries a layer ARN, among other things. *)
Definition layers_body (arn : value) (more_versions more_layers : list (string * value))
    (other_layers : list value) (more : list (string * value)) : value :=
  VObj (("Layers",
         VArr (VObj (("LatestMatchingVersion",
                      VObj (("LayerVersionArn", arn) :: more_versions)) :: more_layers)
               :: other_layers)) :: more).

(** A function with one layer, a later version of the sample layer. *)
Definition later_layer_function : FuncDef :=
  mkFuncDef (Some "svc-dev-hello") None (VStr "index.handler") (VStr "nodejs12.x")
            (Some [VStr "arn:aws:lambda:us-east-1:554407330061:layer:MainlandLayer:91"])
            None.

(** A function that brings its own settings. *)
Definition configured_function : FuncDef :=
  mkFuncDef (Some "svc-dev-hello")
            (Some (<["NEW_RELIC_LOG_LEVEL" := VStr "trace"]>
                   (<["STAGE" := VStr "dev"]> ∅)))
            (VStr "handler.main") (VStr "python3.7")
            (Some [VObj [("Ref", VStr "OtherLayer")]])
            (Some (mkPackage (Some [VStr "node_modules/**"]) [("individually", VBool true)])).

(** The sample service asked to put the layer first. *)
Definition prepending_service : Serverless :=
  mkServerless (mkVersion 1 60 0 []) None (VStr "us-east-1") VUndefined VUndefined
               (mkConfig (VStr "1234567") (VStr "7654321") (VStr sample_arn) VUndefined
                         (VBool true) (VBool true) VUndefined)
               [("hello", configured_function); ("internal", internal_function)].

(** A task all of whose waits are last waits: whatever runs after a call
    of it settles issues nothing more. *)
Inductive one_shot : Reconciler.task -> Prop :=
| one_shot_Ret v : one_shot (Reconciler.Ret v)
| one_shot_Raise err : one_shot (Reconciler.Raise err)
| one_shot_Emit line k : one_shot k -> one_shot (Reconciler.Emit line k)
| one_shot_Await c k :
    (forall r, Reconciler.silent (k r)) -> one_shot (Reconciler.Await c k)
| one_shot_Fork child k :
    one_shot child -> one_shot k -> one_shot (Reconciler.Fork child k).

(** An error as the provider client throws it: it carries a
    [providerError]. *)
Definition provider_error (err : value) : Prop :=
  nullish err = false /\ nullish (get_prop err "providerError") = false.

(** The message [log_provider_error] logs for it. *)
Definition message_of (err : value) : value :=
  get_prop (get_prop err "providerError") "message".

(** The provider's refusal to delete a filter that does not exist. *)
Definition not_found_error : value :=
  VObj [("providerError",
         VObj [("message", VStr "The specified subscription filter does not exist.");
               ("code", VStr "ResourceNotFoundException")])].

(** A filter of this plugin that is up to date. *)
Definition current_filter : value :=
  VObj [("filterName", VStr "NewRelicLogStreaming");
        ("filterPattern", VStr "NR_LAMBDA_MONITORING")].

(** The answer of the provider's SDK to a describe call: an object that
    holds the filters, not an array. *)
Definition sdk_describe_response : value :=
  VObj [("subscriptionFilters", VArr [Reconciler.old_filter])].

(** ** What [String.prototype.match] does with a pattern of ordinary characters *)

Section PlainPatterns.
Import JS.

Lemma atom_of_ordinary c : ordinary c = true -> atom_of c = Some (Lit c).
Proof.
  unfold ordinary, atom_of, uninterpreted. cbn [existsb].
  intros H. apply negb_true_iff in H.
  repeat (apply orb_false_iff in H; destruct H as [? H]).
  repeat match goal with E : Ascii.eqb _ _ = false |- _ => rewrite E; clear E end.
  reflexivity.
Qed.

Lemma compile_plain p : plain p = true -> compile p = Some (lits p).
Proof.
  induction p as [|c p IH]; cbn [plain compile lits]; [reflexivity|].
  intros H. apply andb_true_iff in H as [Hc Hp].
  rewrite (atom_of_ordinary _ Hc), (IH Hp). reflexivity.
Qed.

Lemma match_here_lits p : forall b s, match_here (lits p) b s = starts_with p s.
Proof.
  induction p as [|c p IH]; intros b s; cbn [lits match_here starts_with]; [reflexivity|].
  destruct s as [|d s]; [reflexivity|]. rewrite IH. reflexivity.
Qed.

Lemma search_lits p : forall s b, search (lits p) b s = includes p s.
Proof.
  induction s as [|d s IH]; intros b; cbn [search includes];
    rewrite match_here_lits; [reflexivity|].
  rewrite IH. reflexivity.
Qed.

Lemma String_match_plain s p : plain p = true -> String_match s p = Some (includes p s).
Proof.
  intros H. unfold String_match. rewrite (compile_plain _ H). cbn.
  rewrite search_lits. reflexivity.
Qed.

Lemma starts_with_refl p : starts_with p p = true.
Proof.
  induction p as [|c p IH]; cbn [starts_with]; [reflexivity|].
  rewrite Ascii.eqb_refl, IH. reflexivity.
Qed.

Lemma includes_refl p : includes p p = true.
Proof. destruct p; cbn [includes]; rewrite starts_with_refl; reflexivity. Qed.

Lemma String_match_self p : plain p = true -> String_match p p = Some true.
Proof. intros H. rewrite (String_match_plain _ _ H), includes_refl. reflexivity. Qed.

End PlainPatterns.

(** ** The handler rewrite *)

Section HandlerRewrite.
Import Planner.

(** A runtime outside the node family is none of the three node runtimes. *)
Lemma not_node_runtime runtime :
  includes "nodejs" runtime = false ->
  indexOf (String.eqb runtime) ["nodejs8.10"; "nodejs10.x"; "nodejs12.x"] = (-1)%Z.
Proof.
  intros H. unfold indexOf. cbn [indexOf_from].
  repeat match goal with
  | |- context [String.eqb runtime ?lit] =>
      destruct (String.eqb_spec runtime lit) as [->|_];
        [vm_compute in H; discriminate H|]
  end.
  reflexivity.
Qed.

(** C9.  [getHandlerWrapper] sends runtime "nodejs12.x" to
    "newrelic-lambda-wrapper.handler" and runtime "python3.7" to
    "newrelic_lambda_wrapper.handler", whatever the handler was; for a
    runtime that matches neither "nodejs" nor "python" it returns the
    handler it was given. *)
Theorem getHandlerWrapper_rewrite (enterprise handler : value) :
  getHandlerWrapper enterprise "nodejs12.x" handler
    = Some (VStr "newrelic-lambda-wrapper.handler")
  /\ getHandlerWrapper enterprise "python3.7" handler
    = Some (VStr "newrelic_lambda_wrapper.handler")
  /\ forall runtime,
       includes "nodejs" runtime = false ->
       includes "python" runtime = false ->
       getHandlerWrapper enterprise runtime handler = Some handler.
Proof.
  split; [reflexivity|]. split.
  - unfold getHandlerWrapper. cbn. reflexivity.
  - intros runtime Hnode Hpy. unfold getHandlerWrapper.
    rewrite (not_node_runtime _ Hnode). cbn [Z.eqb negb orb].
    destruct (String.eqb_spec runtime "nodejs10.x") as [->|_];
      [vm_compute in Hnode; discriminate Hnode|].
    cbn [andb]. rewrite String_match_plain by reflexivity.
    cbn. rewrite Hpy. reflexivity.
Qed.

Lemma getHandlerWrapper_rewrite_witness :
  getHandlerWrapper VUndefined "ruby2.5" (VStr "index.handler") = Some (VStr "index.handler").
Proof.
  apply (proj2 (proj2 (getHandlerWrapper_rewrite VUndefined (VStr "index.handler"))));
    reflexivity.
Defined.

End HandlerRewrite.

(** ** The planner's guards *)

Section Guards.
Import Planner.

Lemma indexOf_from_absent {A} (p : A -> bool) (l : list A) :
  forall i, Forall (fun x => p x = false) l -> indexOf_from p l i = (-1)%Z.
Proof.
  induction l as [|x l IH]; intros i H; cbn [indexOf_from]; [reflexivity|].
  inversion H as [|? ? Hx Hl]; subst. rewrite Hx. apply IH, Hl.
Qed.

Lemma indexOf_string_absent (r : string) (l : list string) :
  ~ In r l -> indexOf (String.eqb r) l = (-1)%Z.
Proof.
  intros H. apply indexOf_from_absent. apply List.Forall_forall. intros x Hx.
  destruct (String.eqb_spec r x) as [->|_]; [contradiction|reflexivity].
Qed.

(** C7.  When the runtime of a function (its own, or the provider's when it
    has none) is not a string of the supported set, [addLayer] returns
    early and the definition is the one it was given: layers, handler,
    environment and packaging are untouched. *)
Theorem unsupported_runtime_skips
    (lookup : string -> value -> exchange) (sls : Serverless)
    (funcName : string) (funcDef : FuncDef) :
  (forall r, default_to (provider_runtime sls) (fd_runtime funcDef) = VStr r ->
             ~ In r supported_runtimes) ->
  exists log, addLayer lookup sls funcName funcDef = Some (Skipped, funcDef, log).
Proof.
  intros H. unfold addLayer.
  destruct (negb (truthy (region sls))); [eauto|].
  destruct (negb (truthy (accountId (config sls))) && _); [eauto|].
  destruct (default_to (provider_runtime sls) (fd_runtime funcDef)) as [| | | |r| |] eqn:E;
    eauto.
  rewrite (indexOf_string_absent r supported_runtimes (H r eq_refl)).
  cbn [Z.eqb]. eauto.
Qed.

Lemma unsupported_runtime_skips_witness :
  exists log,
    addLayer (answering None) sample_service "hello" ruby_function
      = Some (Skipped, ruby_function, log).
Proof.
  apply unsupported_runtime_skips.
  intros r E. injection E as <-. cbn. intuition discriminate.
Defined.

End Guards.

(** ** A completed run of the planner *)

Section CompletedRun.
Import Planner.

Lemma env_get_insert (k k' : string) (v : value) (m : gmap string value) :
  env_get (<[k := v]> m) k' = if String.eqb k k' then v else env_get m k'.
Proof.
  unfold env_get. destruct (String.eqb_spec k k') as [->|Hne].
  - rewrite lookup_insert_eq. reflexivity.
  - rewrite lookup_insert_ne by exact Hne. reflexivity.
Qed.

Lemma env_get_insert_eq (k : string) (v : value) (m : gmap string value) :
  env_get (<[k := v]> m) k = v.
Proof. rewrite env_get_insert, String.eqb_refl. reflexivity. Qed.

Lemma env_get_insert_ne (k k' : string) (v : value) (m : gmap string value) :
  k <> k' -> env_get (<[k := v]> m) k' = env_get m k'.
Proof.
  intros H. rewrite env_get_insert. apply String.eqb_neq in H. rewrite H. reflexivity.
Qed.

Lemma env_get_keep_or_ne (k k' : string) (fallback : value) (m : gmap string value) :
  k <> k' -> env_get (keep_or k fallback m) k' = env_get m k'.
Proof. apply env_get_insert_ne. Qed.

Lemma env_get_keep_or_eq (k : string) (fallback : value) (m : gmap string value) :
  env_get (keep_or k fallback m) k = pick (env_get m k) fallback.
Proof. apply env_get_insert_eq. Qed.

(** Read a key through one assignment to another key. *)
Ltac peel :=
  etransitivity;
  [ first [ apply env_get_keep_or_ne | apply env_get_insert_ne ]; discriminate | ].

(** What [instrument] returns, field by field. *)
Lemma instrument_inv sls funcName funcDef runtime arn funcDef' already :
  instrument sls funcName funcDef runtime arn = Some (funcDef', already) ->
  exists found handler' pkg',
    newRelicLayers (pattern_of arn) (default [] (fd_layers funcDef)) = Some found
    /\ already = negb (length found =? 0)%nat
    /\ getHandlerWrapper (enterpriseEnabled sls) runtime (fd_handler funcDef) = Some handler'
    /\ updatePackageExcludes runtime (default (mkPackage None []) (fd_package funcDef))
       = Some pkg'
    /\ funcDef' =
       {| fd_name := fd_name funcDef;
          fd_environment :=
            Some (assign_environment (config sls) (fd_name funcDef) funcName
                    (fd_handler funcDef) (default ∅ (fd_environment funcDef)));
          fd_handler := handler';
          fd_runtime := fd_runtime funcDef;
          fd_layers :=
            if already then fd_layers funcDef
            else if is_boolean (prepend (config sls)) && truthy (prepend (config sls))
            then Some (arn :: default [] (fd_layers funcDef))
            else Some (default [] (fd_layers funcDef) ++ [arn])%list;
          fd_package := Some pkg' |}.
Proof.
  unfold instrument. intros H.
  destruct (newRelicLayers _ _) as [found|] eqn:Hf; [|discriminate H].
  cbn [mbind option_bind] in H.
  destruct (getHandlerWrapper _ _ _) as [handler'|] eqn:Hh; [|discriminate H].
  cbn [mbind option_bind] in H.
  destruct (updatePackageExcludes _ _) as [pkg'|] eqn:Hp; [|discriminate H].
  cbn [mbind option_bind] in H. injection H as <- <-.
  exists found, handler', pkg'. repeat split; assumption.
Qed.

(** A call of [addLayer] that ran to the end passed the four guards, got
    an ARN, and left what [instrument] computes. *)
Lemma addLayer_completed_inv lookup sls funcName funcDef funcDef' log :
  addLayer lookup sls funcName funcDef = Some (Completed, funcDef', log) ->
  exists runtime arn already,
    truthy (region sls) = true
    /\ (truthy (accountId (config sls))
        || truthy (env_of funcDef "NEW_RELIC_ACCOUNT_ID")) = true
    /\ default_to (provider_runtime sls) (fd_runtime funcDef) = VStr runtime
    /\ indexOf (String.eqb runtime) supported_runtimes <> (-1)%Z
    /\ excluded (config sls) funcName = false
    /\ resolve lookup sls runtime = Resolved arn
    /\ instrument sls funcName funcDef runtime arn = Some (funcDef', already).
Proof.
  unfold addLayer, env_of. intros H.
  destruct (truthy (region sls)) eqn:Hr; cbn [negb] in H; [|discriminate H].
  destruct (truthy (accountId (config sls))) eqn:Ha;
    destruct (truthy (env_get _ "NEW_RELIC_ACCOUNT_ID")) eqn:He;
    cbn [negb andb] in H; try discriminate H.
  all: destruct (default_to _ _) as [| | | |runtime| |] eqn:Ert; try discriminate H.
  all: destruct (Z.eqb_spec (indexOf (String.eqb runtime) supported_runtimes) (-1));
    [discriminate H|].
  all: destruct (excluded _ _) eqn:Hx; [discriminate H|].
  all: destruct (resolve _ _ _) as [arn|e] eqn:Hres; [|discriminate H].
  all: destruct (instrument _ _ _ _ _) as [[d' already]|] eqn:Hi; [|discriminate H].
  all: cbn in H; injection H as <- _.
  all: exists runtime, arn, already; repeat split; auto.
Qed.

(** C5, as the code has it.  A run of [addLayer] that is not skipped writes
    back to NEW_RELIC_SERVERLESS_MODE_ENABLED the value the key already
    read ([undefined] when it was absent), and the configured
    [serverlessModeEnabled] plays no part: a run under any other setting of
    it gives the same result. *)
Theorem serverless_mode_written_back
    (lookup : string -> value -> exchange) (sls : Serverless)
    (funcName : string) (funcDef funcDef' : FuncDef) (log : list log_line) :
  addLayer lookup sls funcName funcDef = Some (Completed, funcDef', log) ->
  env_of funcDef' "NEW_RELIC_SERVERLESS_MODE_ENABLED"
    = env_of funcDef "NEW_RELIC_SERVERLESS_MODE_ENABLED"
  /\ forall setting : value,
       let cfg := config sls in
       let cfg' :=
         mkConfig (accountId cfg) (trustedAccountKey cfg) (layerArn cfg) (exclude cfg)
                  (prepend cfg) (debug cfg) setting in
       let sls' :=
         mkServerless (version sls) (plugins sls) (region sls) (provider_runtime sls)
                      (enterpriseEnabled sls) cfg' (functions sls) in
       addLayer lookup sls' funcName funcDef = Some (Completed, funcDef', log).
Proof.
  intros H. split.
  - apply addLayer_completed_inv in H
      as (runtime & arn & already & _ & _ & _ & _ & _ & _ & Hi).
    apply instrument_inv in Hi as (found & handler' & pkg' & _ & _ & _ & _ & ->).
    unfold env_of at 1. cbn [fd_environment default from_option id].
    unfold assign_environment. rewrite env_get_insert_eq.
    change (truthy (VStr "true")) with true. cbv iota.
    do 7 peel. reflexivity.
  - intros setting cfg cfg' sls'. rewrite <- H. reflexivity.
Qed.

Lemma assign_environment_settled cfg name funcName handler environment :
  assign_environment cfg name funcName handler environment
  = settled_environment cfg name funcName handler environment.
Proof.
  unfold assign_environment, settled_environment.
  change (truthy (VStr "true")) with true. cbv iota zeta. unfold keep_or.
  repeat match goal with
  | |- <[?k := _]> _ = <[?k := _]> _ => f_equal
  | |- pick _ _ = pick _ _ => f_equal
  end.
  all: try reflexivity.
  all: repeat first [ rewrite env_get_insert_eq
                    | rewrite env_get_insert_ne by discriminate ].
  all: reflexivity.
Qed.

Lemma pick_pick x fallback : pick (pick x fallback) fallback = pick x fallback.
Proof.
  unfold pick. destruct (truthy x) eqn:E; [rewrite E; reflexivity|].
  destruct (truthy fallback); reflexivity.
Qed.

Lemma env_get_lookup (m : gmap string value) k v : m !! k = Some v -> env_get m k = v.
Proof. intros H. unfold env_get. rewrite H. reflexivity. Qed.

(** Find a literal key in a tower of assignments. *)
Ltac find_key :=
  rewrite ?lookup_insert_ne by discriminate;
  first [ apply lookup_insert_eq | eassumption ].

(** Running the assignments over their own result only replaces
    NEW_RELIC_LAMBDA_HANDLER. *)
Lemma assign_environment_again cfg name funcName handler handler' environment :
  let once := assign_environment cfg name funcName handler environment in
  assign_environment cfg name funcName handler' once
  = <["NEW_RELIC_LAMBDA_HANDLER" := handler']> once.
Proof.
  intros once. rewrite (assign_environment_settled _ _ _ handler' once).
  subst once. rewrite assign_environment_settled.
  set (once := settled_environment cfg name funcName handler environment).
  assert (Hsme : once !! "NEW_RELIC_SERVERLESS_MODE_ENABLED" = Some _)
    by (unfold once, settled_environment; find_key).
  assert (Htrust : once !! "NEW_RELIC_TRUSTED_ACCOUNT_KEY" = Some _)
    by (unfold once, settled_environment; find_key).
  assert (Hacct : once !! "NEW_RELIC_ACCOUNT_ID" = Some _)
    by (unfold once, settled_environment; find_key).
  assert (Happ : once !! "NEW_RELIC_APP_NAME" = Some _)
    by (unfold once, settled_environment; find_key).
  assert (Hncf : once !! "NEW_RELIC_NO_CONFIG_FILE" = Some _)
    by (unfold once, settled_environment; find_key).
  assert (Hlevel : once !! "NEW_RELIC_LOG_LEVEL" = Some _)
    by (unfold once, settled_environment; find_key).
  assert (Hlog : once !! "NEW_RELIC_LOG" = Some _)
    by (unfold once, settled_environment; find_key).
  clearbody once. unfold settled_environment.
  rewrite (env_get_lookup _ _ _ Hsme), (env_get_lookup _ _ _ Htrust),
    (env_get_lookup _ _ _ Hacct), (env_get_lookup _ _ _ Happ),
    (env_get_lookup _ _ _ Hncf), (env_get_lookup _ _ _ Hlevel),
    (env_get_lookup _ _ _ Hlog).
  cbv zeta. rewrite !pick_pick.
  rewrite !insert_id by find_key. reflexivity.
Qed.

Lemma assigned_account_id cfg name funcName handler environment :
  env_get (assign_environment cfg name funcName handler environment) "NEW_RELIC_ACCOUNT_ID"
  = pick (env_get environment "NEW_RELIC_ACCOUNT_ID") (accountId cfg).
Proof.
  rewrite assign_environment_settled. unfold settled_environment. cbv zeta.
  do 2 peel. apply env_get_insert_eq.
Qed.

(** The wrapper of a wrapped handler is the same wrapper. *)
Lemma getHandlerWrapper_again enterprise runtime handler handler' :
  getHandlerWrapper enterprise runtime handler = Some handler' ->
  getHandlerWrapper enterprise runtime handler' = Some handler'.
Proof.
  unfold getHandlerWrapper.
  destruct (negb _ || _); [intros H; exact H|].
  rewrite String_match_plain by reflexivity. cbn [mbind option_bind].
  destruct (includes "python" runtime); intros H; injection H as <-; reflexivity.
Qed.

Lemma updatePackageExcludes_plain runtime pkg :
  updatePackageExcludes runtime pkg
  = Some (if includes "nodejs" runtime
          then {| pkg_exclude := Some (default [] (pkg_exclude pkg) ++ [VStr exclude_entry])%list;
                  pkg_rest := pkg_rest pkg |}
          else pkg).
Proof.
  unfold updatePackageExcludes. rewrite String_match_plain by reflexivity.
  cbn [mbind option_bind]. destruct (includes "nodejs" runtime); reflexivity.
Qed.

(** The converse of [addLayer_completed_inv]. *)
Lemma addLayer_completes lookup sls funcName funcDef runtime arn funcDef' already :
  truthy (region sls) = true ->
  (truthy (accountId (config sls))
   || truthy (env_of funcDef "NEW_RELIC_ACCOUNT_ID")) = true ->
  default_to (provider_runtime sls) (fd_runtime funcDef) = VStr runtime ->
  indexOf (String.eqb runtime) supported_runtimes <> (-1)%Z ->
  excluded (config sls) funcName = false ->
  resolve lookup sls runtime = Resolved arn ->
  instrument sls funcName funcDef runtime arn = Some (funcDef', already) ->
  exists log, addLayer lookup sls funcName funcDef = Some (Completed, funcDef', log).
Proof.
  intros Hr Ha Hrt Hsup Hx Hres Hi. unfold addLayer.
  rewrite Hr. cbn [negb]. unfold env_of in Ha.
  apply orb_true_iff in Ha.
  replace (negb (truthy (accountId (config sls))) && _) with false
    by (destruct Ha as [-> | ->]; [reflexivity|symmetry; apply andb_false_r]).
  rewrite Hrt.
  destruct (Z.eqb_spec (indexOf (String.eqb runtime) supported_runtimes) (-1));
    [contradiction|].
  rewrite Hx, Hres, Hi. cbn. eauto.
Qed.

Lemma completed_run (r : option (ending * FuncDef * list log_line)) :
  match r with Some (Completed, _, _) => true | _ => false end = true ->
  exists funcDef' log, r = Some (Completed, funcDef', log).
Proof.
  destruct r as [[[[] funcDef'] log]|]; intros H; try discriminate H. eauto.
Qed.

Lemma serverless_mode_written_back_witness :
  exists funcDef' log,
    addLayer (answering None) sample_service "hello" sample_function
      = Some (Completed, funcDef', log)
    /\ env_of funcDef' "NEW_RELIC_SERVERLESS_MODE_ENABLED"
       = env_of sample_function "NEW_RELIC_SERVERLESS_MODE_ENABLED".
Proof.
  destruct (completed_run
              (addLayer (answering None) sample_service "hello" sample_function))
    as (funcDef' & log & H); [vm_compute; reflexivity|].
  exists funcDef', log. split; [exact H|].
  exact (proj1 (serverless_mode_written_back _ _ _ _ _ _ H)).
Defined.

(** C5, as the claim words it, fails: on a function without the key, under
    a configuration that sets [serverlessModeEnabled], the completed run
    leaves NEW_RELIC_SERVERLESS_MODE_ENABLED reading [undefined], not
    "true". *)
Lemma serverless_mode_not_true :
  ending_of (addLayer (answering None) sample_service "hello" sample_function)
    = Some Completed
  /\ (fun d => env_of d "NEW_RELIC_SERVERLESS_MODE_ENABLED")
    <$> left_by (addLayer (answering None) sample_service "hello" sample_function)
  = Some VUndefined
  /\ (fun d => env_of d "NEW_RELIC_SERVERLESS_MODE_ENABLED")
       <$> left_by (addLayer (answering None) sample_service "hello" sample_function)
     <> Some (VStr "true").
Proof. repeat split; try (vm_compute; reflexivity). vm_compute. discriminate. Qed.

End CompletedRun.

(** ** The layer ARN resolver *)

Section Resolver.
Import Planner.

(** C3, as the code has it.  [getLayerArn] rejects when the request fails
    (with the request's error) and when the body does not parse (with the
    parser's error).  When the body parses it resolves with whatever
    [_.get] finds at [Layers[0].LatestMatchingVersion.LayerVersionArn]; for
    an object with neither a [Layers] key nor a key spelt like the whole
    path, that is [undefined], and the promise still resolves. *)
Theorem getLayerArn_settles
    (lookup : string -> value -> exchange) (runtime : string) (region : value) :
  (lookup runtime region = Failed ->
     getLayerArn lookup runtime region = Rejected RequestError)
  /\ (lookup runtime region = Replied None ->
     getLayerArn lookup runtime region = Rejected SyntaxError)
  /\ (forall awsResp, lookup runtime region = Replied (Some awsResp) ->
     getLayerArn lookup runtime region
       = Resolved (JS.get awsResp layer_arn_path layer_arn_keys))
  /\ (forall fields, lookup runtime region = Replied (Some (VObj fields)) ->
     assoc "Layers" fields = None -> assoc layer_arn_path fields = None ->
     getLayerArn lookup runtime region = Resolved VUndefined).
Proof.
  unfold getLayerArn. repeat split.
  - intros ->. reflexivity.
  - intros ->. reflexivity.
  - intros awsResp ->. reflexivity.
  - intros fields -> HL Hp. cbn [getLayerArn_of]. unfold JS.get.
    cbn [nullish]. rewrite Hp. cbn [layer_arn_keys baseGet nullish get_prop].
    rewrite HL. reflexivity.
Qed.

Lemma getLayerArn_settles_witness :
  getLayerArn (answering (Some forbidden_body)) "nodejs12.x" (VStr "us-east-1")
    = Resolved VUndefined.
Proof.
  apply (proj2 (proj2 (proj2
    (getLayerArn_settles (answering (Some forbidden_body)) "nodejs12.x" (VStr "us-east-1"))))
    [("message", VStr "Forbidden")]); reflexivity.
Defined.

(** C3, as the claim words it, fails: a body that parses but lacks the path
    makes the resolver resolve, with [undefined]; [addLayer] runs to the end
    on it and pushes [undefined] onto the layers. *)
Lemma getLayerArn_resolves_undefined :
  getLayerArn (answering (Some forbidden_body)) "nodejs12.x" (VStr "us-east-1")
    = Resolved VUndefined
  /\ ending_of (addLayer (answering (Some forbidden_body)) lookup_service "hello"
                  sample_function)
     = Some Completed
  /\ left_by (addLayer (answering (Some forbidden_body)) lookup_service "hello"
                sample_function) ≫= fd_layers
     = Some [VUndefined].
Proof. repeat split; vm_compute; reflexivity. Qed.

End Resolver.

(** ** Layers already present, and a second run *)

Section SecondRun.
Import Planner.

Lemma newRelicLayers_plain (p : string) (layers : list value) :
  plain p = true ->
  newRelicLayers (Some p) layers = Some (List.filter (layer_includes p) layers).
Proof.
  intros Hp. induction layers as [|layer rest IH]; cbn [newRelicLayers List.filter];
    [reflexivity|].
  rewrite IH. destruct layer; cbn; try reflexivity.
  rewrite (String_match_plain _ _ Hp). cbn. reflexivity.
Qed.

Lemma filter_keeps {A} (f : A -> bool) (x : A) (l : list A) :
  In x l -> f x = true -> (length (List.filter f l) =? 0)%nat = false.
Proof.
  intros Hin Hf. destruct (List.filter f l) eqn:E; [|reflexivity].
  assert (Hx : In x (List.filter f l)) by (apply List.filter_In; auto).
  rewrite E in Hx. destruct Hx.
Qed.

Lemma own_arn_found (arn : string) (layers : list value) :
  In (VStr arn) layers ->
  (length (List.filter (layer_includes arn) layers) =? 0)%nat = false.
Proof. intros H. apply (filter_keeps _ (VStr arn)); [exact H|apply includes_refl]. Qed.

(** C8, as the code has it.  Let the resolved layer ARN be a string of
    ordinary characters (none of the pattern syntax characters, as in every
    layer ARN the provider issues) and let the layers of the function hold
    a string equal to it.  Then a run of [addLayer] that is not skipped
    leaves the layers as they were: no second copy is appended or
    prepended. *)
Theorem present_layer_not_added_again
    (lookup : string -> value -> exchange) (sls : Serverless)
    (funcName : string) (funcDef funcDef' : FuncDef) (log : list log_line)
    (arn : string) :
  plain arn = true ->
  In (VStr arn) (default [] (fd_layers funcDef)) ->
  (forall runtime,
     default_to (provider_runtime sls) (fd_runtime funcDef) = VStr runtime ->
     resolve lookup sls runtime = Resolved (VStr arn)) ->
  addLayer lookup sls funcName funcDef = Some (Completed, funcDef', log) ->
  fd_layers funcDef' = fd_layers funcDef.
Proof.
  intros Hplain Hin Hres H.
  apply addLayer_completed_inv in H
    as (runtime & arn' & already & _ & _ & Hrt & _ & _ & Hres' & Hi).
  rewrite (Hres runtime Hrt) in Hres'. injection Hres' as <-.
  apply instrument_inv in Hi as (found & handler' & pkg' & Hf & -> & _ & _ & ->).
  cbn [pattern_of] in Hf. rewrite (newRelicLayers_plain _ _ Hplain) in Hf.
  injection Hf as <-. rewrite (own_arn_found _ _ Hin). reflexivity.
Qed.

Lemma present_layer_not_added_again_witness :
  exists funcDef' log,
    addLayer (answering None) sample_service "hello" layered_function
      = Some (Completed, funcDef', log)
    /\ fd_layers funcDef' = Some [VStr sample_arn].
Proof.
  destruct (completed_run
              (addLayer (answering None) sample_service "hello" layered_function))
    as (funcDef' & log & H); [vm_compute; reflexivity|].
  exists funcDef', log. split; [exact H|].
  apply (present_layer_not_added_again (answering None) sample_service "hello"
           layered_function funcDef' log sample_arn).
  - vm_compute; reflexivity.
  - cbn. left. reflexivity.
  - intros runtime _. reflexivity.
  - exact H.
Defined.

(** C8, as the claim words it, fails: with the layer reference
    "...:MainlandLayer:$LATEST" both configured and already among the
    layers, the [$] is read as pattern syntax, the reference does not match
    itself, and the completed run appends a second copy. *)
Lemma layer_with_pattern_syntax_added_again :
  In (VStr latest_arn) (default [] (fd_layers latest_function))
  /\ resolve (answering None) latest_service "nodejs12.x" = Resolved (VStr latest_arn)
  /\ ending_of (addLayer (answering None) latest_service "hello" latest_function)
     = Some Completed
  /\ left_by (addLayer (answering None) latest_service "hello" latest_function)
       ≫= fd_layers
     = Some [VStr latest_arn; VStr latest_arn].
Proof. split; [left; reflexivity|]. repeat split; vm_compute; reflexivity. Qed.

(** What a second run finds among the layers the first one left. *)
Lemma own_arn_found_again (arn : string) (layers : option (list value)) (front : bool) :
  let already := negb (length (List.filter (layer_includes arn) (default [] layers)) =? 0)%nat in
  let layers' :=
    if already then layers
    else if front then Some (VStr arn :: default [] layers)
    else Some (default [] layers ++ [VStr arn])%list in
  (length (List.filter (layer_includes arn) (default [] layers')) =? 0)%nat = false.
Proof.
  intros already layers'. subst layers'. destruct already eqn:E.
  - subst already. apply negb_true_iff in E. exact E.
  - destruct front; apply own_arn_found; cbn [default from_option id].
    + left. reflexivity.
    + apply in_or_app. right. left. reflexivity.
Qed.

(** C1, as the code has it.  Take a run of [addLayer] that was not skipped,
    with a resolved layer ARN that is a string of ordinary characters, and
    run [addLayer] again on the definition it left, under the same
    configuration and lookup.  The second run is not skipped either; it
    leaves the name, the runtime, the layers and the handler as the first
    run left them, and every environment value but one.  It overwrites
    NEW_RELIC_LAMBDA_HANDLER with the handler the first run installed, and
    for a runtime matching "nodejs" it appends the exclude entry once
    more; for the other runtimes the packaging stays. *)
Theorem second_run_after_first
    (lookup : string -> value -> exchange) (sls : Serverless)
    (funcName : string) (funcDef once : FuncDef) (log : list log_line)
    (arn : string) :
  plain arn = true ->
  (forall runtime,
     default_to (provider_runtime sls) (fd_runtime funcDef) = VStr runtime ->
     resolve lookup sls runtime = Resolved (VStr arn)) ->
  addLayer lookup sls funcName funcDef = Some (Completed, once, log) ->
  exists twice log',
    addLayer lookup sls funcName once = Some (Completed, twice, log')
    /\ fd_name twice = fd_name once
    /\ fd_runtime twice = fd_runtime once
    /\ fd_layers twice = fd_layers once
    /\ fd_handler twice = fd_handler once
    /\ (forall key, key <> "NEW_RELIC_LAMBDA_HANDLER" ->
          env_of twice key = env_of once key)
    /\ env_of twice "NEW_RELIC_LAMBDA_HANDLER" = fd_handler once
    /\ (forall runtime,
          default_to (provider_runtime sls) (fd_runtime funcDef) = VStr runtime ->
          if includes "nodejs" runtime
          then excludes_of twice = (excludes_of once ++ [VStr exclude_entry])%list
          else fd_package twice = fd_package once).
Proof.
  intros Hplain Hres H.
  destruct (addLayer_completed_inv _ _ _ _ _ _ H)
    as (runtime & arn' & already & Hreg & Hacc & Hrt & Hsup & Hex & Hres' & Hi).
  rewrite (Hres runtime Hrt) in Hres'. injection Hres' as <-.
  destruct (instrument_inv _ _ _ _ _ _ _ Hi)
    as (found & handler' & pkg' & Hf & Halready & Hh & Hp & Honce).
  cbn [pattern_of] in Hf. rewrite (newRelicLayers_plain _ _ Hplain) in Hf.
  injection Hf as <-.
  set (environment := assign_environment (config sls) (fd_name funcDef) funcName
                        (fd_handler funcDef) (default ∅ (fd_environment funcDef))) in *.
  set (pkg'' := if includes "nodejs" runtime
                then {| pkg_exclude :=
                          Some (default [] (pkg_exclude pkg') ++ [VStr exclude_entry])%list;
                        pkg_rest := pkg_rest pkg' |}
                else pkg').
  set (twice := {| fd_name := fd_name funcDef;
                   fd_environment :=
                     Some (<["NEW_RELIC_LAMBDA_HANDLER" := handler']> environment);
                   fd_handler := handler';
                   fd_runtime := fd_runtime funcDef;
                   fd_layers := fd_layers once;
                   fd_package := Some pkg'' |}).
  assert (Hi2 : instrument sls funcName once runtime (VStr arn) = Some (twice, true)).
  { unfold instrument. cbn [pattern_of].
    rewrite (newRelicLayers_plain _ _ Hplain). cbn [mbind option_bind].
    assert (Hfound : (length (List.filter (layer_includes arn) (default [] (fd_layers once)))
                      =? 0)%nat = false).
    { rewrite Honce. cbn [fd_layers]. rewrite Halready.
      apply (own_arn_found_again arn (fd_layers funcDef)). }
    rewrite Hfound. cbn [negb].
    subst twice. rewrite Honce. cbn [fd_name fd_environment fd_handler fd_runtime fd_layers
                                     fd_package default from_option id].
    fold environment. unfold environment at 1.
    rewrite assign_environment_again. fold environment.
    rewrite (getHandlerWrapper_again _ _ _ _ Hh). cbn [mbind option_bind].
    rewrite updatePackageExcludes_plain. cbn [mbind option_bind].
    reflexivity. }
  assert (Hacc2 : (truthy (accountId (config sls))
                   || truthy (env_of once "NEW_RELIC_ACCOUNT_ID")) = true).
  { destruct (truthy (accountId (config sls))); [reflexivity|].
    cbn [orb] in Hacc |- *. rewrite Honce. unfold env_of at 1.
    cbn [fd_environment default from_option id]. unfold environment.
    rewrite assigned_account_id. unfold pick. fold (env_of funcDef "NEW_RELIC_ACCOUNT_ID"). rewrite Hacc. exact Hacc. }
  assert (Hrt2 : default_to (provider_runtime sls) (fd_runtime once) = VStr runtime)
    by (rewrite Honce; exact Hrt).
  destruct (addLayer_completes lookup sls funcName once runtime (VStr arn) twice true
              Hreg Hacc2 Hrt2 Hsup Hex (Hres runtime Hrt) Hi2) as (log' & H2).
  exists twice, log'. split; [exact H2|].
  subst twice. rewrite Honce. cbn [fd_name fd_runtime fd_layers fd_handler].
  repeat split.
  - intros key Hkey. unfold env_of. cbn [fd_environment default from_option id].
    apply env_get_insert_ne. congruence.
  - unfold env_of. cbn [fd_environment default from_option id]. apply env_get_insert_eq.
  - intros runtime' Hrt'. rewrite Hrt in Hrt'. injection Hrt' as <-.
    subst pkg''. unfold excludes_of. cbn [fd_package mbind option_bind].
    destruct (includes "nodejs" runtime); reflexivity.
Qed.

Lemma second_run_after_first_witness :
  exists once twice log log',
    addLayer (answering None) sample_service "hello" sample_function
      = Some (Completed, once, log)
    /\ addLayer (answering None) sample_service "hello" once
       = Some (Completed, twice, log')
    /\ fd_layers twice = fd_layers once
    /\ env_of twice "NEW_RELIC_LAMBDA_HANDLER" = fd_handler once
    /\ excludes_of twice = (excludes_of once ++ [VStr exclude_entry])%list.
Proof.
  destruct (completed_run
              (addLayer (answering None) sample_service "hello" sample_function))
    as (once & log & H); [vm_compute; reflexivity|].
  destruct (second_run_after_first (answering None) sample_service "hello"
              sample_function once log sample_arn)
    as (twice & log' & H2 & _ & _ & Hl & _ & _ & Hh & Hp).
  - vm_compute; reflexivity.
  - intros runtime _. reflexivity.
  - exact H.
  - exists once, twice, log, log'. repeat split; try assumption.
    exact (Hp "nodejs12.x" eq_refl).
Defined.

(** C1, as the claim words it, fails: on the sample function (runtime
    nodejs12.x, handler index.handler) two runs do not leave what one run
    leaves.  The second run overwrites NEW_RELIC_LAMBDA_HANDLER with the
    wrapper handler and appends the exclude entry a second time. *)
Lemma second_run_differs :
  plan_twice (answering None) sample_service "hello" sample_function
    <> plan_once (answering None) sample_service "hello" sample_function
  /\ (fun d => env_of d "NEW_RELIC_LAMBDA_HANDLER")
       <$> plan_once (answering None) sample_service "hello" sample_function
     = Some (VStr "index.handler")
  /\ (fun d => env_of d "NEW_RELIC_LAMBDA_HANDLER")
       <$> plan_twice (answering None) sample_service "hello" sample_function
     = Some (VStr "newrelic-lambda-wrapper.handler")
  /\ excludes_of <$> plan_once (answering None) sample_service "hello" sample_function
     = Some [VStr "!newrelic-lambda-wrapper.handler"]
  /\ excludes_of <$> plan_twice (answering None) sample_service "hello" sample_function
     = Some [VStr "!newrelic-lambda-wrapper.handler";
             VStr "!newrelic-lambda-wrapper.handler"].
Proof.
  split; [|repeat split; vm_compute; reflexivity].
  intros E. apply (f_equal (fmap excludes_of)) in E. vm_compute in E. discriminate E.
Qed.

End SecondRun.

(** ** The driver [run] and the plugin ordering *)

Section PluginOrdering.
Import Planner.

(** C4, as the code has it.  On a supported framework version, when
    "serverless-webpack" stands in the plugin list at a higher index than
    "serverless-newrelic-layers" (an absent name counting as index -1),
    [run] logs the ordering line and returns: [addLayer] is called on no
    function. *)
Theorem webpack_after_returns
    (lookup : string -> value -> exchange) (sls : Serverless) :
  lt_1_34_0 (version sls) = false ->
  webpack_after (default [] (plugins sls)) = true ->
  run lookup sls
    = Some (RunReturned, [LogPlugins (default [] (plugins sls)); LogWebpackOrder]).
Proof.
  intros Hv Hw. unfold run. rewrite Hv, Hw. reflexivity.
Qed.

Lemma webpack_after_returns_witness :
  run (answering None) bundled_service
    = Some (RunReturned,
            [LogPlugins ["serverless-newrelic-layers"; "serverless-webpack"];
             LogWebpackOrder]).
Proof.
  apply (webpack_after_returns (answering None) bundled_service); reflexivity.
Defined.

(** C4, as the claim words it, fails: with the bundler plugin listed after
    this one, [run] returns before [this.functions] is read, and the one
    function of the service is not processed. *)
Lemma webpack_after_halts :
  webpack_after (default [] (plugins bundled_service)) = true
  /\ ~ processes_every_function (answering None) bundled_service.
Proof.
  split; [reflexivity|].
  intros (calls & log & H & _). vm_compute in H. discriminate H.
Qed.

End PluginOrdering.

(** ** What the reconciler's tasks can issue *)

Section TaskCalls.
Import Reconciler.

Lemma within_mono (P Q : call -> Prop) (t : task) :
  (forall c, P c -> Q c) -> within P t -> within Q t.
Proof.
  intros HPQ Hw. induction Hw; constructor; auto.
Qed.

Lemma within_bind (P : call -> Prop) (t : task) (f : value -> task) :
  within P t -> (forall v, within P (f v)) -> within P (bind t f).
Proof.
  intros Hw Hf. induction Hw; cbn [bind]; try (constructor; auto); auto.
Qed.

Lemma within_catch (P : call -> Prop) (t : task) (g : value -> task) :
  within P t -> (forall err, within P (g err)) -> within P (catch t g).
Proof.
  intros Hw Hg. induction Hw; cbn [catch]; try (constructor; auto); auto.
Qed.

Lemma within_fork_each {A} (P : call -> Prop) (f : A -> task) (xs : list A) (k : task) :
  (forall x, In x xs -> within P (f x)) -> within P k -> within P (fork_each f xs k).
Proof.
  induction xs as [|x xs IH]; intros Hf Hk; cbn [fork_each]; [exact Hk|].
  constructor; [apply Hf; left; reflexivity|].
  apply IH; [|exact Hk]. intros y Hy. apply Hf. right. exact Hy.
Qed.

Lemma within_request (P : call -> Prop) (c : call) : P c -> within P (request c).
Proof. intros Hc. constructor; [exact Hc|]. intros [res|err]; constructor. Qed.

Lemma within_read (P : call -> Prop) (o : value) (k : string) (next : value -> task) :
  (forall v, within P (next v)) -> within P (read o k next).
Proof. intros H. unfold read. destruct (nullish o); [constructor|apply H]. Qed.

(** The error handler only logs. *)
Lemma within_log_provider_error (P : call -> Prop) (err : value) :
  within P (log_provider_error err).
Proof.
  unfold log_provider_error. apply within_read. intros providerError.
  apply within_read. intros message. repeat constructor.
Qed.

Lemma within_removeSubscriptionFilter (P : call -> Prop) (name : option string) :
  P (DeleteSubscriptionFilter reserved_name (log_group name)) ->
  within P (removeSubscriptionFilter name).
Proof.
  intros H. apply within_catch; [apply within_request, H|].
  apply within_log_provider_error.
Qed.

Lemma within_addSubscriptionFilter (P : call -> Prop) (name : option string) (arn : value) :
  P (PutSubscriptionFilter arn reserved_name expected_pattern (log_group name)) ->
  within P (addSubscriptionFilter name arn).
Proof.
  intros H. apply within_catch; [apply within_request, H|].
  apply within_log_provider_error.
Qed.

Lemma concerns_reconcile (name : option string) (arn res : value) :
  within (concerns name) (reconcile name arn res).
Proof.
  unfold reconcile. destruct res; try constructor.
  destruct (filter_by "filterName" _ _ _) as [existing|]; [|constructor].
  destruct (negb _).
  - destruct (filter_by "filterPattern" _ _ _) as [stale|]; [|constructor].
    apply within_fork_each;
      [intros; apply within_removeSubscriptionFilter; reflexivity|].
    apply within_fork_each;
      [intros; apply within_addSubscriptionFilter; reflexivity|constructor].
  - apply within_addSubscriptionFilter. reflexivity.
Qed.

Lemma concerns_describeSubscriptionFilters (name : option string) (arn : value) :
  within (concerns name) (describeSubscriptionFilters name arn).
Proof.
  apply within_catch; [|apply within_log_provider_error].
  apply within_bind; [apply within_request; reflexivity|].
  apply concerns_reconcile.
Qed.

Lemma concerns_getDestinationArn (name : option string) :
  within (concerns name) (getDestinationArn name).
Proof.
  apply within_catch; [|apply within_log_provider_error].
  apply within_bind; [apply within_request; right; reflexivity|].
  intros res. apply within_read. intros configuration. apply within_read.
  intros arn. apply concerns_describeSubscriptionFilters.
Qed.

(** Every call of one function's reconciliation is about that function. *)
Lemma concerns_ensureLogStreamFilter (name : option string) :
  within (concerns name) (ensureLogStreamFilter name).
Proof.
  apply within_catch; [|apply within_log_provider_error].
  apply within_bind; [apply within_request; left; reflexivity|].
  intros _. apply concerns_getDestinationArn.
Qed.

Lemma issued_app (a b : list event) : issued (a ++ b) = (issued a ++ issued b)%list.
Proof. apply omap_app. Qed.

(** Running a task adds events to the trace; the calls among them are the
    task's own. *)
Lemma run_sync_within (P : call -> Prop) (t : task) :
  within P t ->
  forall s, pending_within P s ->
  exists new,
    trace (run_sync t s) = (trace s ++ new)%list
    /\ Forall P (issued new)
    /\ pending_within P (run_sync t s).
Proof.
  intros Hw. induction Hw as [v|err|line k Hk IH|c k Hc Hk IH|child k Hchild IHc Hk IHk];
    intros s Hs; cbn [run_sync].
  - exists []. rewrite app_nil_r. repeat split; [constructor|exact Hs].
  - exists [Unhandled err]. repeat split; [constructor|exact Hs].
  - destruct (IH (record (Logged line) s) Hs) as (new & Ht & Hn & Hp).
    exists (Logged line :: new). rewrite Ht. cbn [record trace].
    rewrite <- app_assoc. repeat split; [exact Hn|exact Hp].
  - exists [Issued (next_id s) c]. cbn [trace]. repeat split.
    + cbn. constructor; [exact Hc|constructor].
    + unfold pending_within. cbn [pending]. apply Forall_app. split; [exact Hs|].
      constructor; [exact Hk|constructor].
  - destruct (IHc s Hs) as (new1 & Ht1 & Hn1 & Hp1).
    destruct (IHk (run_sync child s) Hp1) as (new2 & Ht2 & Hn2 & Hp2).
    exists (new1 ++ new2)%list. rewrite Ht2, Ht1, <- app_assoc.
    repeat split; [|exact Hp2]. rewrite issued_app. apply Forall_app. split; assumption.
Qed.

Lemma take_pending_within (P : call -> Prop) (id : nat)
    (ps : list (nat * (response -> task))) k rest :
  take_pending id ps = Some (k, rest) ->
  Forall (fun p => forall r, within P (p.2 r)) ps ->
  (forall r, within P (k r)) /\ Forall (fun p => forall r, within P (p.2 r)) rest.
Proof.
  revert k rest. induction ps as [|[id' k'] ps IH]; intros k rest H Hps;
    cbn [take_pending] in H; [discriminate H|].
  inversion Hps as [|? ? Hk' Hps']; subst.
  destruct (id' =? id)%nat.
  - injection H as <- <-. split; [exact Hk'|exact Hps'].
  - destruct (take_pending id ps) as [[k'' rest'']|]; [|discriminate H].
    injection H as <- <-. destruct (IH _ _ eq_refl Hps') as [Hk Hrest].
    split; [exact Hk|]. constructor; [exact Hk'|exact Hrest].
Qed.

Lemma settle_within (P : call -> Prop) (s : state) (choice : nat * response) :
  pending_within P s ->
  exists new,
    trace (settle s choice) = (trace s ++ new)%list
    /\ Forall P (issued new)
    /\ pending_within P (settle s choice).
Proof.
  intros Hs. destruct choice as [id r]. unfold settle.
  destruct (take_pending id (pending s)) as [[k rest]|] eqn:E.
  - destruct (take_pending_within P _ _ _ _ E Hs) as [Hk Hrest].
    destruct (run_sync_within P (k r) (Hk r)
                (mkState (next_id s) rest (trace s ++ [Settled id r])) Hrest)
      as (new & Ht & Hn & Hp).
    exists (Settled id r :: new). rewrite Ht. cbn [trace]. rewrite <- app_assoc.
    repeat split; [exact Hn|exact Hp].
  - exists []. rewrite app_nil_r. repeat split; [constructor|exact Hs].
Qed.

(** Whatever the provider does, the calls of an execution are those the
    pending code allows. *)
Lemma exec_within (P : call -> Prop) (schedule : list (nat * response)) :
  forall s, pending_within P s ->
  exists new,
    trace (exec schedule s) = (trace s ++ new)%list
    /\ Forall P (issued new)
    /\ pending_within P (exec schedule s).
Proof.
  induction schedule as [|choice schedule IH]; intros s Hs; cbn [exec fold_left].
  - exists []. rewrite app_nil_r. repeat split; [constructor|exact Hs].
  - destruct (settle_within P s choice Hs) as (new1 & Ht1 & Hn1 & Hp1).
    destruct (IH (settle s choice) Hp1) as (new2 & Ht2 & Hn2 & Hp2).
    exists (new1 ++ new2)%list. unfold exec in Ht2, Hp2. rewrite Ht2, Ht1, <- app_assoc.
    repeat split; [|exact Hp2]. rewrite issued_app. apply Forall_app. split; assumption.
Qed.

Lemma nothing_issued (calls : list call) : Forall (fun _ => False) calls -> calls = [].
Proof. destruct calls; [reflexivity|]. intros H. inversion H. contradiction. Qed.

(** Once all pending code is silent, no call is issued any more. *)
Lemma exec_silent (schedule : list (nat * response)) (s : state) :
  pending_within (fun _ => False) s ->
  exists rest, trace (exec schedule s) = (trace s ++ rest)%list /\ issued rest = [].
Proof.
  intros Hs. destruct (exec_within _ schedule s Hs) as (rest & Ht & Hn & _).
  exists rest. split; [exact Ht|apply nothing_issued, Hn].
Qed.

Lemma exec_app (a b : list (nat * response)) (s : state) :
  exec (a ++ b) s = exec b (exec a s).
Proof. apply fold_left_app. Qed.

Lemma run_sync_sync_calls (t : task) :
  forall s, issued (trace (run_sync t s)) = (issued (trace s) ++ sync_calls t)%list.
Proof.
  induction t as [v|err|line k IH|c k _|child IHc k IHk]; intros s;
    cbn [run_sync sync_calls].
  - rewrite app_nil_r. reflexivity.
  - cbn [record trace]. rewrite issued_app. reflexivity.
  - rewrite IH. cbn [record trace]. rewrite issued_app, app_nil_r. reflexivity.
  - cbn [trace]. rewrite issued_app. reflexivity.
  - rewrite IHk, IHc, app_assoc. reflexivity.
Qed.

End TaskCalls.

(** ** Reconciling one function's filter *)

Section Reconciliation.
Import Reconciler.

Lemma silent_settling (r : response) : silent (settling r).
Proof. destruct r; constructor. Qed.

Lemma silent_catch (t : task) : silent t -> silent (catch t log_provider_error).
Proof. intros H. apply within_catch; [exact H|apply within_log_provider_error]. Qed.

(** With the three answers in, what is left to run is the [.then] callback
    on the filters, under the three error handlers of the chain. *)
Lemma exec_answers (name : option string) (found arn : value) (filters : list value) :
  exec (answers found arn filters) (start (ensureLogStreamFilter name))
  = run_sync
      (catch (catch (catch (reconcile name arn (VArr filters)) log_provider_error)
                    log_provider_error)
             log_provider_error)
      (mkState 3 [] (described name found arn filters)).
Proof. reflexivity. Qed.

(** The same for [describeSubscriptionFilters] called on its own. *)
Lemma exec_described (name : option string) (arn : value) (filters : list value) :
  exec [(0%nat, Fulfilled (VArr filters))] (start (describeSubscriptionFilters name arn))
  = run_sync
      (catch (reconcile name arn (VArr filters)) log_provider_error)
      (mkState 1 []
         [Issued 0 (DescribeSubscriptionFilters (log_group name));
          Settled 0 (Fulfilled (VArr filters))]).
Proof. reflexivity. Qed.

Lemma reconcile_absent (name : option string) (arn : value) (filters : list value) :
  filter_by "filterName" reserved_name true filters = Some [] ->
  reconcile name arn (VArr filters) = addSubscriptionFilter name arn.
Proof. intros H. unfold reconcile. rewrite H. reflexivity. Qed.

Lemma filter_by_not_nullish (key wanted : string) (keep : bool) (items : list value) :
  forall kept, filter_by key wanted keep items = Some kept ->
               Forall (fun item => nullish item = false) kept.
Proof.
  induction items as [|item items IH]; intros kept H; cbn [filter_by] in H.
  - injection H as <-. constructor.
  - destruct (nullish item) eqn:E; [discriminate H|].
    destruct (filter_by key wanted keep items) as [kept'|]; [|discriminate H].
    cbn [mbind option_bind] in H. injection H as <-.
    destruct (Bool.eqb _ keep); [constructor; [exact E|]|]; apply IH; reflexivity.
Qed.

Lemma reconcile_stale (name : option string) (arn stale : value) (filters : list value) :
  filter_by "filterName" reserved_name true filters = Some [stale] ->
  strict_eq_string expected_pattern (get_prop stale "filterPattern") = false ->
  reconcile name arn (VArr filters)
  = Fork (removeSubscriptionFilter name)
         (Fork (addSubscriptionFilter name arn) (Ret VUndefined)).
Proof.
  intros H Hstale. unfold reconcile. rewrite H.
  cbn [length Nat.eqb negb filter_by].
  pose proof (filter_by_not_nullish _ _ _ _ _ H) as Hn.
  inversion Hn as [|? ? Hn' _]; subst. rewrite Hn', Hstale. reflexivity.
Qed.

(** Carry an execution on from a state whose pending code is silent. *)
Ltac carry_on schedule rest Hrest :=
  match goal with |- context [exec schedule ?s] =>
    destruct (exec_silent schedule s) as (rest & -> & Hrest);
    [ repeat constructor; intros r; cbn [snd];
      repeat apply silent_catch; apply silent_settling | ]
  end.

(** C6.  Let the log group of a function hold no filter named
    "NewRelicLogStreaming".  Then in every execution
    [describeSubscriptionFilters], once its describe call is answered,
    issues exactly one put, with filter name "NewRelicLogStreaming",
    pattern "NR_LAMBDA_MONITORING", the function's log group and the
    destination it was given, and no other call.  So does the whole
    reconciliation [ensureLogStreamFilter] when the function exists and the
    ingestion function has ARN [arn]: after its three lookups, that one
    put. *)
Theorem no_filter_one_put
    (name : option string) (found arn : value) (filters : list value)
    (schedule : list (nat * response)) :
  filter_by "filterName" reserved_name true filters = Some [] ->
  issued (trace (exec ((0%nat, Fulfilled (VArr filters)) :: schedule)
                      (start (describeSubscriptionFilters name arn))))
  = [DescribeSubscriptionFilters (log_group name);
     PutSubscriptionFilter arn "NewRelicLogStreaming" "NR_LAMBDA_MONITORING"
                           (log_group name)]
  /\ issued (trace (exec (answers found arn filters ++ schedule)
                         (start (ensureLogStreamFilter name))))
     = [GetFunction (name_value name);
        GetFunction (VStr ingestion_function);
        DescribeSubscriptionFilters (log_group name);
        PutSubscriptionFilter arn "NewRelicLogStreaming" "NR_LAMBDA_MONITORING"
                              (log_group name)].
Proof.
  intros H. split.
  - change ((0%nat, Fulfilled (VArr filters)) :: schedule)
      with ([(0%nat, Fulfilled (VArr filters))] ++ schedule)%list.
    rewrite exec_app, exec_described, (reconcile_absent _ _ _ H).
    change (run_sync _ _) with
      (mkState 2
         [(1%nat, fun r => catch (catch (settling r) log_provider_error)
                                 log_provider_error)]
         [Issued 0 (DescribeSubscriptionFilters (log_group name));
          Settled 0 (Fulfilled (VArr filters));
          Issued 1 (PutSubscriptionFilter arn reserved_name expected_pattern
                      (log_group name))]).
    carry_on schedule rest Hrest.
    cbn [trace]. rewrite issued_app, Hrest. reflexivity.
  - rewrite exec_app, exec_answers, (reconcile_absent _ _ _ H).
    change (run_sync _ _) with
      (mkState 4
         [(3%nat, fun r =>
             catch (catch (catch (catch (settling r) log_provider_error)
                                 log_provider_error) log_provider_error)
                   log_provider_error)]
         (described name found arn filters
          ++ [Issued 3 (PutSubscriptionFilter arn reserved_name expected_pattern
                          (log_group name))])).
    carry_on schedule rest Hrest.
    cbn [trace]. rewrite !issued_app, Hrest. reflexivity.
Qed.

Lemma no_filter_one_put_witness :
  issued (trace (exec [(0%nat, Fulfilled (VArr [other_filter]));
                       (1%nat, Fulfilled VUndefined)]
                      (start (describeSubscriptionFilters sample_name ingestion_arn))))
  = [DescribeSubscriptionFilters "/aws/lambda/svc-dev-hello";
     PutSubscriptionFilter ingestion_arn "NewRelicLogStreaming" "NR_LAMBDA_MONITORING"
                           "/aws/lambda/svc-dev-hello"]
  /\ issued (trace (exec (answers (VObj []) ingestion_arn [other_filter]
                            ++ [(1%nat, Fulfilled VUndefined)])
                         (start (ensureLogStreamFilter sample_name))))
     = [GetFunction (VStr "svc-dev-hello");
        GetFunction (VStr "newrelic-log-ingestion");
        DescribeSubscriptionFilters "/aws/lambda/svc-dev-hello";
        PutSubscriptionFilter ingestion_arn "NewRelicLogStreaming" "NR_LAMBDA_MONITORING"
                              "/aws/lambda/svc-dev-hello"].
Proof.
  apply (no_filter_one_put sample_name (VObj []) ingestion_arn [other_filter]
           [(1%nat, Fulfilled VUndefined)]).
  reflexivity.
Defined.

(** C2, what the code does.  Let the log group of a function hold exactly
    one filter named "NewRelicLogStreaming", with a pattern other than
    "NR_LAMBDA_MONITORING".  Then in every execution
    [describeSubscriptionFilters], once its describe call is answered,
    issues one delete and one put and no other call, and the put is issued
    right after the delete is issued, in the same turn: nothing settles in
    between, so the delete has not completed when the put is issued.  The
    same holds of the whole reconciliation [ensureLogStreamFilter] after
    its three lookups. *)
Theorem stale_filter_put_not_sequenced
    (name : option string) (found arn stale : value) (filters : list value)
    (schedule : list (nat * response)) :
  filter_by "filterName" reserved_name true filters = Some [stale] ->
  strict_eq_string expected_pattern (get_prop stale "filterPattern") = false ->
  (exists rest,
     trace (exec ((0%nat, Fulfilled (VArr filters)) :: schedule)
                 (start (describeSubscriptionFilters name arn)))
     = ([Issued 0 (DescribeSubscriptionFilters (log_group name));
         Settled 0 (Fulfilled (VArr filters));
         Issued 1 (DeleteSubscriptionFilter "NewRelicLogStreaming" (log_group name));
         Issued 2 (PutSubscriptionFilter arn "NewRelicLogStreaming"
                     "NR_LAMBDA_MONITORING" (log_group name))]
        ++ rest)%list
     /\ issued rest = [])
  /\ (exists rest,
     trace (exec (answers found arn filters ++ schedule)
                 (start (ensureLogStreamFilter name)))
     = (described name found arn filters
        ++ [Issued 3 (DeleteSubscriptionFilter "NewRelicLogStreaming" (log_group name));
            Issued 4 (PutSubscriptionFilter arn "NewRelicLogStreaming"
                        "NR_LAMBDA_MONITORING" (log_group name))]
        ++ rest)%list
     /\ issued rest = []).
Proof.
  intros H Hstale. split.
  - change ((0%nat, Fulfilled (VArr filters)) :: schedule)
      with ([(0%nat, Fulfilled (VArr filters))] ++ schedule)%list.
    rewrite exec_app, exec_described, (reconcile_stale _ _ _ _ H Hstale).
    change (run_sync _ _) with
      (mkState 3
         [(1%nat, fun r => catch (settling r) log_provider_error);
          (2%nat, fun r => catch (settling r) log_provider_error)]
         [Issued 0 (DescribeSubscriptionFilters (log_group name));
          Settled 0 (Fulfilled (VArr filters));
          Issued 1 (DeleteSubscriptionFilter reserved_name (log_group name));
          Issued 2 (PutSubscriptionFilter arn reserved_name expected_pattern
                      (log_group name))]).
    carry_on schedule rest Hrest.
    exists rest. split; [reflexivity|exact Hrest].
  - rewrite exec_app, exec_answers, (reconcile_stale _ _ _ _ H Hstale).
    change (run_sync _ _) with
      (mkState 5
         [(3%nat, fun r => catch (settling r) log_provider_error);
          (4%nat, fun r => catch (settling r) log_provider_error)]
         (described name found arn filters
          ++ [Issued 3 (DeleteSubscriptionFilter reserved_name (log_group name));
              Issued 4 (PutSubscriptionFilter arn reserved_name expected_pattern
                          (log_group name))])).
    carry_on schedule rest Hrest.
    exists rest. cbn [trace]. rewrite <- app_assoc. split; [reflexivity|exact Hrest].
Qed.

Lemma stale_filter_put_not_sequenced_witness :
  (exists rest,
     trace (exec [(0%nat, Fulfilled (VArr [old_filter]));
                  (2%nat, Fulfilled VUndefined); (1%nat, Fulfilled VUndefined)]
                 (start (describeSubscriptionFilters sample_name ingestion_arn)))
     = ([Issued 0 (DescribeSubscriptionFilters "/aws/lambda/svc-dev-hello");
         Settled 0 (Fulfilled (VArr [old_filter]));
         Issued 1 (DeleteSubscriptionFilter "NewRelicLogStreaming"
                     "/aws/lambda/svc-dev-hello");
         Issued 2 (PutSubscriptionFilter ingestion_arn "NewRelicLogStreaming"
                     "NR_LAMBDA_MONITORING" "/aws/lambda/svc-dev-hello")]
        ++ rest)%list
     /\ issued rest = [])
  /\ (exists rest,
     trace (exec (answers (VObj []) ingestion_arn [old_filter]
                    ++ [(2%nat, Fulfilled VUndefined); (1%nat, Fulfilled VUndefined)])
                 (start (ensureLogStreamFilter sample_name)))
     = (described sample_name (VObj []) ingestion_arn [old_filter]
        ++ [Issued 3 (DeleteSubscriptionFilter "NewRelicLogStreaming"
                        "/aws/lambda/svc-dev-hello");
            Issued 4 (PutSubscriptionFilter ingestion_arn "NewRelicLogStreaming"
                        "NR_LAMBDA_MONITORING" "/aws/lambda/svc-dev-hello")]
        ++ rest)%list
     /\ issued rest = []).
Proof.
  apply (stale_filter_put_not_sequenced sample_name (VObj []) ingestion_arn old_filter
           [old_filter] [(2%nat, Fulfilled VUndefined); (1%nat, Fulfilled VUndefined)]);
    reflexivity.
Defined.

(** On the sample the provider may settle the put first and the delete
    after it: the trace of that execution, in full. *)
Example put_settles_before_delete :
  trace (exec [(0%nat, Fulfilled (VArr [old_filter]));
               (2%nat, Fulfilled VUndefined); (1%nat, Fulfilled VUndefined)]
              (start (describeSubscriptionFilters sample_name ingestion_arn)))
  = [Issued 0 (DescribeSubscriptionFilters "/aws/lambda/svc-dev-hello");
     Settled 0 (Fulfilled (VArr [old_filter]));
     Issued 1 (DeleteSubscriptionFilter "NewRelicLogStreaming" "/aws/lambda/svc-dev-hello");
     Issued 2 (PutSubscriptionFilter ingestion_arn "NewRelicLogStreaming"
                 "NR_LAMBDA_MONITORING" "/aws/lambda/svc-dev-hello");
     Settled 2 (Fulfilled VUndefined);
     Settled 1 (Fulfilled VUndefined)].
Proof. reflexivity. Qed.

End Reconciliation.

(** ** The two drivers and [config.exclude] *)

Section Drivers.
Import Reconciler.

Lemma sync_calls_fork_each {A} (f : A -> task) (xs : list A) (k : task) :
  sync_calls (fork_each f xs k) = (flat_map (fun x => sync_calls (f x)) xs ++ sync_calls k)%list.
Proof.
  induction xs as [|x xs IH]; cbn [fork_each sync_calls flat_map]; [reflexivity|].
  rewrite IH, app_assoc. reflexivity.
Qed.

Lemma start_issued (t : task) : issued (trace (start t)) = sync_calls t.
Proof. unfold start. rewrite run_sync_sync_calls. reflexivity. Qed.

(** Every call of the deploy-time driver is made for a function that is
    not excluded. *)
Lemma addLogStreamFilters_included (sls : Serverless) :
  within (for_included_function sls) (addLogStreamFilters sls).
Proof.
  unfold addLogStreamFilters, with_functions.
  destruct (functions sls) as [|p funcs] eqn:E; [constructor|].
  rewrite <- E. apply within_fork_each; [|constructor].
  intros [funcName funcDef] Hin.
  destruct (excluded (config sls) funcName) eqn:Hx; [constructor|].
  constructor. apply within_bind; [|constructor].
  apply (within_mono (concerns (fd_name funcDef))); [|apply concerns_ensureLogStreamFilter].
  intros c Hc. exists funcName, funcDef. auto.
Qed.

(** C10.  The deploy-time driver [addLogStreamFilters] starts a
    reconciliation (its first call, [getFunction]) for exactly the
    functions that [config.exclude] does not list, and in every execution
    each call it issues is made for such a function: an excluded function
    gets no call.  The teardown driver [removeLogStreamFilters] issues a
    delete for every function of the service, excluded or not, whatever the
    configuration. *)
Theorem exclude_read_on_deploy_only (sls : Serverless) :
  issued (trace (start (addLogStreamFilters sls)))
    = map (fun p => GetFunction (name_value (fd_name p.2)))
          (List.filter (fun p => negb (excluded (config sls) p.1)) (functions sls))
  /\ (forall schedule,
        Forall (for_included_function sls)
               (issued (trace (exec schedule (start (addLogStreamFilters sls))))))
  /\ issued (trace (start (removeLogStreamFilters sls)))
     = map (fun p => DeleteSubscriptionFilter "NewRelicLogStreaming"
                       (log_group (fd_name p.2)))
           (functions sls).
Proof.
  repeat split.
  - rewrite start_issued. unfold addLogStreamFilters, with_functions.
    destruct (functions sls) as [|p funcs] eqn:E; [reflexivity|].
    rewrite sync_calls_fork_each. cbn [sync_calls]. rewrite app_nil_r.
    generalize (p :: funcs). clear E p funcs.
    induction l as [|[funcName funcDef] l IH]; cbn [flat_map List.filter map fst snd];
      [reflexivity|].
    rewrite IH. destruct (excluded (config sls) funcName); reflexivity.
  - intros schedule.
    destruct (run_sync_within _ _ (addLogStreamFilters_included sls) initial)
      as (new0 & Ht0 & Hn0 & Hp0); [constructor|].
    destruct (exec_within _ schedule _ Hp0) as (new & Ht & Hn & _).
    unfold start. rewrite Ht, Ht0. cbn [initial trace app].
    rewrite issued_app. apply Forall_app. split; assumption.
  - rewrite start_issued. unfold removeLogStreamFilters, with_functions.
    destruct (functions sls) as [|p funcs] eqn:E; [reflexivity|].
    rewrite sync_calls_fork_each. cbn [sync_calls]. rewrite app_nil_r.
    generalize (p :: funcs). clear E p funcs.
    induction l as [|[funcName funcDef] l IH]; cbn [flat_map map fst snd];
      [reflexivity|].
    rewrite IH. reflexivity.
Qed.

(** On a service of two functions with the second one excluded: the
    deploy-time driver looks up the first only, the teardown driver deletes
    the filter of both. *)
Example excluded_function_on_deploy_and_teardown :
  issued (trace (start (addLogStreamFilters excluding_service)))
    = [GetFunction (VStr "svc-dev-hello")]
  /\ issued (trace (start (removeLogStreamFilters excluding_service)))
     = [DeleteSubscriptionFilter "NewRelicLogStreaming" "/aws/lambda/svc-dev-hello";
        DeleteSubscriptionFilter "NewRelicLogStreaming" "/aws/lambda/svc-dev-internal"].
Proof. split; reflexivity. Qed.

End Drivers.

(** ** The guards of the planner, in full *)

Section SkipPolicy.
Import Planner.

Lemma indexOf_from_found {A} (p : A -> bool) (l : list A) :
  forall i, indexOf_from p l i <> (-1)%Z -> Exists (fun x => p x = true) l.
Proof.
  induction l as [|x l IH]; intros i H; cbn [indexOf_from] in H; [contradiction|].
  destruct (p x) eqn:Hx; [left; exact Hx|right; exact (IH _ H)].
Qed.

Lemma indexOf_from_from {A} (p : A -> bool) (l : list A) :
  forall i, Exists (fun x => p x = true) l -> (i <= indexOf_from p l i)%Z.
Proof.
  induction l as [|x l IH]; intros i H; cbn [indexOf_from]; [inversion H|].
  destruct (p x) eqn:Hx; [lia|].
  inversion H as [? ? Hx'|? ? Hl]; subst; [congruence|].
  specialize (IH (i + 1)%Z Hl). lia.
Qed.

Lemma indexOf_found_iff {A} (p : A -> bool) (l : list A) :
  indexOf p l <> (-1)%Z <-> Exists (fun x => p x = true) l.
Proof.
  split; [apply indexOf_from_found|].
  intros H. pose proof (indexOf_from_from p l 0%Z H). unfold indexOf. lia.
Qed.

Lemma indexOf_string_in (r : string) (l : list string) :
  indexOf (String.eqb r) l <> (-1)%Z -> In r l.
Proof.
  intros H. apply indexOf_found_iff, List.Exists_exists in H as (x & Hx & E).
  apply String.eqb_eq in E. subst. exact Hx.
Qed.

(** [config.exclude] excludes a function only when it is an array that
    holds the function's key as a string: a single name given as a string,
    or any other value, excludes nothing. *)
Theorem excluded_iff (cfg : Config) (funcName : string) :
  excluded cfg funcName = true
  <-> exists items, exclude cfg = VArr items /\ In (VStr funcName) items.
Proof.
  unfold excluded. split.
  - destruct (exclude cfg) as [| | | | |items|] eqn:E; cbn; try discriminate.
    intros H. exists items. split; [reflexivity|].
    apply negb_true_iff, Z.eqb_neq, indexOf_found_iff, List.Exists_exists in H
      as (x & Hx & Hs).
    destruct x; cbn in Hs; try discriminate Hs.
    apply String.eqb_eq in Hs. subst. exact Hx.
  - intros (items & -> & Hin). cbn.
    apply negb_true_iff, Z.eqb_neq, indexOf_found_iff, List.Exists_exists.
    exists (VStr funcName). split; [exact Hin|]. cbn. apply String.eqb_refl.
Qed.

(** A call of [addLayer] that does not run to the end, because a guard
    returned early or because the layer lookup failed, leaves the
    definition exactly as it was. *)
Theorem unfinished_run_leaves_definition
    (lookup : string -> value -> exchange) (sls : Serverless)
    (funcName : string) (funcDef funcDef' : FuncDef) (how : ending)
    (log : list log_line) :
  addLayer lookup sls funcName funcDef = Some (how, funcDef', log) ->
  how <> Completed ->
  funcDef' = funcDef.
Proof.
  unfold addLayer. intros H Hhow.
  destruct (negb (truthy (region sls))); [injection H as _ <- _; reflexivity|].
  destruct (negb (truthy (accountId (config sls))) && _);
    [injection H as _ <- _; reflexivity|].
  destruct (default_to _ _) as [| | | |runtime| |];
    try (injection H as _ <- _; reflexivity).
  destruct (_ =? -1)%Z; [injection H as _ <- _; reflexivity|].
  destruct (excluded _ _); [injection H as _ <- _; reflexivity|].
  destruct (resolve _ _ _) as [arn|e]; [|injection H as _ <- _; reflexivity].
  destruct (instrument _ _ _ _ _) as [r|]; [|discriminate H].
  cbn in H. injection H as <- _ _. contradiction.
Qed.

Lemma unfinished_run_leaves_definition_witness :
  exists log,
    addLayer (answering None) lookup_service "hello" configured_function
      = Some (Failure SyntaxError, configured_function, log).
Proof.
  destruct (addLayer (answering None) lookup_service "hello" configured_function)
    as [[[how funcDef'] log]|] eqn:H; [|vm_compute in H; discriminate H].
  assert (Hhow : how = Failure SyntaxError)
    by (vm_compute in H; injection H as <- _ _; reflexivity).
  subst how. exists log.
  rewrite (unfinished_run_leaves_definition _ _ _ _ _ _ _ H); [reflexivity|discriminate].
Defined.

(** [addLayer] returns early exactly when one of its four guards fails: no
    region, no account id in the configuration or the environment, a
    runtime outside the supported set, or a function listed in
    [config.exclude].  It then leaves the definition untouched, and when
    every guard passes it never ends as skipped. *)
Theorem skipped_iff_guard_fails
    (lookup : string -> value -> exchange) (sls : Serverless)
    (funcName : string) (funcDef : FuncDef) :
  (guards_pass sls funcName funcDef = false ->
     exists log, addLayer lookup sls funcName funcDef = Some (Skipped, funcDef, log))
  /\ (guards_pass sls funcName funcDef = true ->
     forall how funcDef' log,
       addLayer lookup sls funcName funcDef = Some (how, funcDef', log) ->
       how <> Skipped).
Proof.
  unfold guards_pass, effective_runtime, env_of, addLayer. split.
  - intros H.
    destruct (truthy (region sls)); cbn [negb andb] in *; [|eauto].
    destruct (truthy (accountId (config sls)));
      destruct (truthy (env_get _ "NEW_RELIC_ACCOUNT_ID")); cbn [negb andb orb] in *;
      eauto.
    all: destruct (default_to _ _) as [| | | |runtime| |]; eauto.
    all: destruct (_ =? -1)%Z; cbn [negb andb] in *; eauto.
    all: destruct (excluded _ _); [eauto|discriminate H].
  - intros H how funcDef' log Hrun.
    destruct (truthy (region sls)); cbn [negb andb] in *; [|discriminate H].
    destruct (truthy (accountId (config sls)));
      destruct (truthy (env_get _ "NEW_RELIC_ACCOUNT_ID")); cbn [negb andb orb] in *;
      try discriminate H.
    all: destruct (default_to _ _) as [| | | |runtime| |]; try discriminate H.
    all: destruct (_ =? -1)%Z; cbn [negb andb] in *; [discriminate H|].
    all: destruct (excluded _ _); [discriminate H|].
    all: destruct (resolve _ _ _) as [arn|e]; [|injection Hrun as <- _ _; discriminate].
    all: destruct (instrument _ _ _ _ _) as [r|]; [|discriminate Hrun].
    all: cbn in Hrun; injection Hrun as <- _ _; discriminate.
Qed.

(** A function that has no account id anywhere. *)
Lemma skipped_iff_guard_fails_witness :
  (exists log,
     addLayer (answering None)
       (mkServerless (mkVersion 1 60 0 []) None (VStr "us-east-1") VUndefined VUndefined
          (mkConfig VUndefined VUndefined (VStr sample_arn) VUndefined VUndefined
                    VUndefined VUndefined) [])
       "hello" sample_function
     = Some (Skipped, sample_function, log))
  /\ (forall how funcDef' log,
        addLayer (answering None) sample_service "hello" sample_function
          = Some (how, funcDef', log) ->
        how <> Skipped).
Proof.
  split.
  - apply (proj1 (skipped_iff_guard_fails _ _ _ _)). reflexivity.
  - apply (proj2 (skipped_iff_guard_fails _ _ _ _)). reflexivity.
Defined.

End SkipPolicy.

(** ** What a completed run leaves in the definition *)

Section CompletedRunFacts.
Import Planner.

Lemma pick_truthy (x fallback : value) : truthy x = true -> pick x fallback = x.
Proof. intros H. unfold pick. rewrite H. reflexivity. Qed.

(** The environment of a completed run, as reads of the environment of the
    definition it was given. *)
Lemma completed_environment lookup sls funcName funcDef funcDef' log :
  addLayer lookup sls funcName funcDef = Some (Completed, funcDef', log) ->
  forall key,
    env_of funcDef' key
    = env_get (settled_environment (config sls) (fd_name funcDef) funcName
                 (fd_handler funcDef) (default ∅ (fd_environment funcDef))) key.
Proof.
  intros H key.
  apply addLayer_completed_inv in H
    as (runtime & arn & already & _ & _ & _ & _ & _ & _ & Hi).
  apply instrument_inv in Hi as (found & handler' & pkg' & _ & _ & _ & _ & ->).
  unfold env_of at 1. cbn [fd_environment default from_option id].
  rewrite assign_environment_settled. reflexivity.
Qed.

(** The account id the environment ends up with is set. *)
Lemma completed_account_id lookup sls funcName funcDef funcDef' log :
  addLayer lookup sls funcName funcDef = Some (Completed, funcDef', log) ->
  truthy (pick (env_of funcDef "NEW_RELIC_ACCOUNT_ID") (accountId (config sls))) = true.
Proof.
  intros H.
  apply addLayer_completed_inv in H
    as (runtime & arn & already & _ & Hacc & _ & _ & _ & _ & _).
  unfold pick. destruct (truthy (env_of funcDef "NEW_RELIC_ACCOUNT_ID")) eqn:E;
    [exact E|]. rewrite orb_false_r in Hacc. exact Hacc.
Qed.

(** First write wins.  In a completed run, an environment value the
    function already had and that is truthy is kept, for every key but
    NEW_RELIC_LAMBDA_HANDLER; and a key that is none of the eight keys
    [addLayer] assigns keeps its value whatever it is. *)
Theorem explicit_values_kept
    (lookup : string -> value -> exchange) (sls : Serverless)
    (funcName : string) (funcDef funcDef' : FuncDef) (log : list log_line)
    (key : string) :
  addLayer lookup sls funcName funcDef = Some (Completed, funcDef', log) ->
  key <> "NEW_RELIC_LAMBDA_HANDLER" ->
  truthy (env_of funcDef key) = true \/ ~ In key assigned_keys ->
  env_of funcDef' key = env_of funcDef key.
Proof.
  intros H Hkey Hcase. rewrite (completed_environment _ _ _ _ _ _ H).
  unfold settled_environment. cbv zeta. rewrite !env_get_insert.
  fold (env_of funcDef key).
  repeat match goal with
  | |- context [String.eqb ?k key] =>
      destruct (String.eqb_spec k key) as [<-|?]
  end; try reflexivity; try contradiction.
  all: destruct Hcase as [Ht|Hnot];
    [apply pick_truthy; exact Ht
    |exfalso; apply Hnot; unfold assigned_keys; cbn [In]; tauto].
Qed.

Lemma explicit_values_kept_witness :
  exists funcDef' log,
    addLayer (answering None) prepending_service "hello" configured_function
      = Some (Completed, funcDef', log)
    /\ env_of funcDef' "NEW_RELIC_LOG_LEVEL" = VStr "trace"
    /\ env_of funcDef' "STAGE" = VStr "dev".
Proof.
  destruct (completed_run
              (addLayer (answering None) prepending_service "hello" configured_function))
    as (funcDef' & log & H); [vm_compute; reflexivity|].
  exists funcDef', log. split; [exact H|]. split.
  - rewrite (explicit_values_kept _ _ _ _ _ _ "NEW_RELIC_LOG_LEVEL" H);
      [vm_compute; reflexivity|discriminate|left; vm_compute; reflexivity].
  - rewrite (explicit_values_kept _ _ _ _ _ _ "STAGE" H);
      [vm_compute; reflexivity|discriminate|].
    right. unfold assigned_keys. cbn [In]. intuition discriminate.
Defined.

(** Defaults.  In a completed run NEW_RELIC_LAMBDA_HANDLER becomes the
    handler the function had; each of NEW_RELIC_LOG, NEW_RELIC_LOG_LEVEL,
    NEW_RELIC_NO_CONFIG_FILE, NEW_RELIC_APP_NAME and NEW_RELIC_ACCOUNT_ID
    keeps a truthy value and otherwise (absent, empty, [false], 0) becomes
    its default: "stdout"; "debug" when [config.debug] is truthy, else
    "info"; "true"; the function's name, or its key when the name is falsy;
    [config.accountId]. *)
Theorem defaults_fill_gaps
    (lookup : string -> value -> exchange) (sls : Serverless)
    (funcName : string) (funcDef funcDef' : FuncDef) (log : list log_line) :
  addLayer lookup sls funcName funcDef = Some (Completed, funcDef', log) ->
  env_of funcDef' "NEW_RELIC_LAMBDA_HANDLER" = fd_handler funcDef
  /\ env_of funcDef' "NEW_RELIC_LOG"
     = pick (env_of funcDef "NEW_RELIC_LOG") (VStr "stdout")
  /\ env_of funcDef' "NEW_RELIC_LOG_LEVEL"
     = pick (env_of funcDef "NEW_RELIC_LOG_LEVEL")
            (if truthy (debug (config sls)) then VStr "debug" else VStr "info")
  /\ env_of funcDef' "NEW_RELIC_NO_CONFIG_FILE"
     = pick (env_of funcDef "NEW_RELIC_NO_CONFIG_FILE") (VStr "true")
  /\ env_of funcDef' "NEW_RELIC_APP_NAME"
     = pick (env_of funcDef "NEW_RELIC_APP_NAME")
            (or_else (name_value (fd_name funcDef)) (VStr funcName))
  /\ env_of funcDef' "NEW_RELIC_ACCOUNT_ID"
     = pick (env_of funcDef "NEW_RELIC_ACCOUNT_ID") (accountId (config sls)).
Proof.
  intros H. rewrite !(completed_environment _ _ _ _ _ _ H).
  unfold settled_environment. cbv zeta.
  repeat split;
    repeat first [ rewrite env_get_insert_eq
                 | rewrite env_get_insert_ne by discriminate ];
    reflexivity.
Qed.

Lemma defaults_fill_gaps_witness :
  exists funcDef' log,
    addLayer (answering None) prepending_service "hello" configured_function
      = Some (Completed, funcDef', log)
    /\ env_of funcDef' "NEW_RELIC_LAMBDA_HANDLER" = VStr "handler.main"
    /\ env_of funcDef' "NEW_RELIC_LOG" = VStr "stdout"
    /\ env_of funcDef' "NEW_RELIC_LOG_LEVEL" = VStr "trace"
    /\ env_of funcDef' "NEW_RELIC_NO_CONFIG_FILE" = VStr "true"
    /\ env_of funcDef' "NEW_RELIC_APP_NAME" = VStr "svc-dev-hello"
    /\ env_of funcDef' "NEW_RELIC_ACCOUNT_ID" = VStr "1234567".
Proof.
  destruct (completed_run
              (addLayer (answering None) prepending_service "hello" configured_function))
    as (funcDef' & log & H); [vm_compute; reflexivity|].
  exists funcDef', log. split; [exact H|].
  exact (defaults_fill_gaps _ _ _ _ _ _ H).
Defined.

End CompletedRunFacts.

(** ** The trusted account key, the handler and the packaging *)

Section CompletedRunParts.
Import Planner.

Lemma settled_environment_trusted cfg key name funcName handler environment :
  truthy (pick (env_get environment "NEW_RELIC_ACCOUNT_ID") (accountId cfg)) = true ->
  settled_environment
    (mkConfig (accountId cfg) key (layerArn cfg) (exclude cfg) (prepend cfg) (debug cfg)
              (serverlessModeEnabled cfg))
    name funcName handler environment
  = settled_environment cfg name funcName handler environment.
Proof.
  intros H. unfold settled_environment. cbn [accountId trustedAccountKey debug].
  cbv zeta. rewrite !(pick_truthy _ _ H). reflexivity.
Qed.

(** [config.trustedAccountKey] is never used.  A completed run leaves a
    truthy NEW_RELIC_ACCOUNT_ID, and NEW_RELIC_TRUSTED_ACCOUNT_KEY is the
    truthy value the function had, or else that account id; the run gives
    the same definition under any other [trustedAccountKey]. *)
Theorem trusted_key_is_account_id
    (lookup : string -> value -> exchange) (sls : Serverless)
    (funcName : string) (funcDef funcDef' : FuncDef) (log : list log_line) :
  addLayer lookup sls funcName funcDef = Some (Completed, funcDef', log) ->
  truthy (env_of funcDef' "NEW_RELIC_ACCOUNT_ID") = true
  /\ env_of funcDef' "NEW_RELIC_TRUSTED_ACCOUNT_KEY"
     = pick (env_of funcDef "NEW_RELIC_TRUSTED_ACCOUNT_KEY")
            (env_of funcDef' "NEW_RELIC_ACCOUNT_ID")
  /\ forall key, exists log',
       addLayer lookup (with_trustedAccountKey key sls) funcName funcDef
         = Some (Completed, funcDef', log').
Proof.
  intros H. pose proof (completed_account_id _ _ _ _ _ _ H) as Hacc.
  assert (Hid : env_of funcDef' "NEW_RELIC_ACCOUNT_ID"
                = pick (env_of funcDef "NEW_RELIC_ACCOUNT_ID") (accountId (config sls))).
  { rewrite (completed_environment _ _ _ _ _ _ H). unfold settled_environment. cbv zeta.
    do 2 (rewrite env_get_insert_ne by discriminate). apply env_get_insert_eq. }
  split; [rewrite Hid; exact Hacc|]. split.
  - rewrite Hid, (completed_environment _ _ _ _ _ _ H).
    unfold settled_environment. cbv zeta.
    rewrite env_get_insert_ne by discriminate. rewrite env_get_insert_eq.
    fold (env_of funcDef "NEW_RELIC_ACCOUNT_ID").
    fold (env_of funcDef "NEW_RELIC_TRUSTED_ACCOUNT_KEY").
    rewrite (pick_truthy _ (trustedAccountKey (config sls)) Hacc). reflexivity.
  - intros key.
    destruct (addLayer_completed_inv _ _ _ _ _ _ H)
      as (runtime & arn & already & Hreg & Hguard & Hrt & Hsup & Hex & Hres & Hi).
    apply (addLayer_completes lookup (with_trustedAccountKey key sls) funcName funcDef
             runtime arn funcDef' already); try assumption.
    destruct (instrument_inv _ _ _ _ _ _ _ Hi)
      as (found & handler' & pkg' & Hf & -> & Hh & Hp & ->).
    unfold instrument.
    cbn [with_trustedAccountKey config enterpriseEnabled prepend].
    rewrite Hf. cbn [mbind option_bind]. rewrite Hh. cbn [mbind option_bind].
    rewrite Hp. cbn [mbind option_bind].
    rewrite !assign_environment_settled, settled_environment_trusted by exact Hacc.
    reflexivity.
Qed.

Lemma trusted_key_is_account_id_witness :
  exists funcDef' log,
    addLayer (answering None) prepending_service "hello" configured_function
      = Some (Completed, funcDef', log)
    /\ truthy (env_of funcDef' "NEW_RELIC_ACCOUNT_ID") = true
    /\ env_of funcDef' "NEW_RELIC_TRUSTED_ACCOUNT_KEY"
       = env_of funcDef' "NEW_RELIC_ACCOUNT_ID".
Proof.
  destruct (completed_run
              (addLayer (answering None) prepending_service "hello" configured_function))
    as (funcDef' & log & H); [vm_compute; reflexivity|].
  exists funcDef', log. split; [exact H|].
  destruct (trusted_key_is_account_id _ _ _ _ _ _ H) as (Ht & He & _).
  split; [exact Ht|]. rewrite He. reflexivity.
Defined.

(** A completed run always installs a wrapper: the node wrapper for a
    runtime matching "nodejs", the python wrapper for the others.  The
    handler the function had is kept in NEW_RELIC_LAMBDA_HANDLER, and the
    name and the runtime of the definition stay. *)
Theorem handler_wrapped_original_kept
    (lookup : string -> value -> exchange) (sls : Serverless)
    (funcName : string) (funcDef funcDef' : FuncDef) (log : list log_line) :
  addLayer lookup sls funcName funcDef = Some (Completed, funcDef', log) ->
  exists runtime,
    effective_runtime sls funcDef = VStr runtime
    /\ fd_handler funcDef'
       = VStr (if includes "nodejs" runtime
               then "newrelic-lambda-wrapper.handler"
               else "newrelic_lambda_wrapper.handler")
    /\ env_of funcDef' "NEW_RELIC_LAMBDA_HANDLER" = fd_handler funcDef
    /\ fd_name funcDef' = fd_name funcDef
    /\ fd_runtime funcDef' = fd_runtime funcDef.
Proof.
  intros H.
  assert (Henv : env_of funcDef' "NEW_RELIC_LAMBDA_HANDLER" = fd_handler funcDef).
  { rewrite (completed_environment _ _ _ _ _ _ H). unfold settled_environment. cbv zeta.
    do 7 (rewrite env_get_insert_ne by discriminate). apply env_get_insert_eq. }
  destruct (addLayer_completed_inv _ _ _ _ _ _ H)
    as (runtime & arn & already & _ & _ & Hrt & Hsup & _ & _ & Hi).
  exists runtime. split; [exact Hrt|].
  destruct (instrument_inv _ _ _ _ _ _ _ Hi)
    as (found & handler' & pkg' & _ & _ & Hh & _ & Hd).
  split; [|split; [exact Henv|rewrite Hd; split; reflexivity]].
  rewrite Hd. cbn [fd_handler].
  apply indexOf_string_in in Hsup. unfold supported_runtimes in Hsup. cbn [In] in Hsup.
  destruct Hsup as [<-|[<-|[<-|[<-|[<-|[<-|[]]]]]]];
    cbn in Hh; injection Hh as <-; reflexivity.
Qed.

Lemma handler_wrapped_original_kept_witness :
  exists funcDef' log,
    addLayer (answering None) prepending_service "hello" configured_function
      = Some (Completed, funcDef', log)
    /\ fd_handler funcDef' = VStr "newrelic_lambda_wrapper.handler"
    /\ env_of funcDef' "NEW_RELIC_LAMBDA_HANDLER" = VStr "handler.main".
Proof.
  destruct (completed_run
              (addLayer (answering None) prepending_service "hello" configured_function))
    as (funcDef' & log & H); [vm_compute; reflexivity|].
  exists funcDef', log. split; [exact H|].
  destruct (handler_wrapped_original_kept _ _ _ _ _ _ H)
    as (runtime & Hrt & Hh & Henv & _).
  vm_compute in Hrt. injection Hrt as <-. split; [exact Hh|exact Henv].
Defined.

(** Packaging.  A completed run keeps every exclude pattern the function
    had, in order, and every other packaging key; for a runtime matching
    "nodejs" it appends "!newrelic-lambda-wrapper.handler" at the end, for
    the other runtimes it adds nothing. *)
Theorem packaging_extended
    (lookup : string -> value -> exchange) (sls : Serverless)
    (funcName : string) (funcDef funcDef' : FuncDef) (log : list log_line) :
  addLayer lookup sls funcName funcDef = Some (Completed, funcDef', log) ->
  exists runtime,
    effective_runtime sls funcDef = VStr runtime
    /\ excludes_of funcDef'
       = (excludes_of funcDef
          ++ if includes "nodejs" runtime
             then [VStr "!newrelic-lambda-wrapper.handler"] else [])%list
    /\ pkg_rest <$> fd_package funcDef'
       = Some (default [] (pkg_rest <$> fd_package funcDef)).
Proof.
  intros H.
  destruct (addLayer_completed_inv _ _ _ _ _ _ H)
    as (runtime & arn & already & _ & _ & Hrt & _ & _ & _ & Hi).
  exists runtime. split; [exact Hrt|].
  destruct (instrument_inv _ _ _ _ _ _ _ Hi)
    as (found & handler' & pkg' & _ & _ & _ & Hp & ->).
  rewrite updatePackageExcludes_plain in Hp. injection Hp as <-.
  unfold excludes_of. cbn [fd_package mbind option_bind fmap option_fmap option_map].
  destruct (fd_package funcDef) as [pkg|];
    destruct (includes "nodejs" runtime);
    cbn [default from_option id pkg_exclude pkg_rest mbind option_bind fmap option_fmap
         option_map];
    rewrite ?app_nil_r; split; reflexivity.
Qed.

Lemma packaging_extended_witness :
  exists funcDef' log,
    addLayer (answering None) prepending_service "hello" configured_function
      = Some (Completed, funcDef', log)
    /\ excludes_of funcDef' = [VStr "node_modules/**"]
    /\ pkg_rest <$> fd_package funcDef' = Some [("individually", VBool true)].
Proof.
  destruct (completed_run
              (addLayer (answering None) prepending_service "hello" configured_function))
    as (funcDef' & log & H); [vm_compute; reflexivity|].
  exists funcDef', log. split; [exact H|].
  destruct (packaging_extended _ _ _ _ _ _ H) as (runtime & Hrt & He & Hr).
  vm_compute in Hrt. injection Hrt as <-. split; [exact He|exact Hr].
Defined.

End CompletedRunParts.

(** ** Where the layer goes, and where its ARN comes from *)

Section LayerAttachment.
Import Planner.

(** A new layer.  When the resolved ARN is a string of ordinary characters
    that occurs in none of the function's string layers, a completed run
    adds it once: in front when [config.prepend] is the boolean [true], at
    the end otherwise, also when [prepend] is a truthy value that is not a
    boolean (the string "true", 1).  The layers the function had keep their
    order. *)
Theorem new_layer_placement
    (lookup : string -> value -> exchange) (sls : Serverless)
    (funcName : string) (funcDef funcDef' : FuncDef) (log : list log_line)
    (arn : string) :
  plain arn = true ->
  List.filter (layer_includes arn) (default [] (fd_layers funcDef)) = [] ->
  (forall runtime,
     effective_runtime sls funcDef = VStr runtime ->
     resolve lookup sls runtime = Resolved (VStr arn)) ->
  addLayer lookup sls funcName funcDef = Some (Completed, funcDef', log) ->
  fd_layers funcDef'
  = Some (match prepend (config sls) with
          | VBool true => VStr arn :: default [] (fd_layers funcDef)
          | _ => default [] (fd_layers funcDef) ++ [VStr arn]
          end)%list.
Proof.
  intros Hplain Hnone Hres H.
  apply addLayer_completed_inv in H
    as (runtime & arn' & already & _ & _ & Hrt & _ & _ & Hres' & Hi).
  rewrite (Hres runtime Hrt) in Hres'. injection Hres' as <-.
  apply instrument_inv in Hi as (found & handler' & pkg' & Hf & -> & _ & _ & ->).
  cbn [pattern_of] in Hf. rewrite (newRelicLayers_plain _ _ Hplain), Hnone in Hf.
  injection Hf as <-. cbn [length Nat.eqb negb fd_layers].
  destruct (prepend (config sls)) as [| |[]| | | |]; reflexivity.
Qed.

Lemma new_layer_placement_witness :
  exists funcDef' log,
    addLayer (answering None) prepending_service "hello" configured_function
      = Some (Completed, funcDef', log)
    /\ fd_layers funcDef' = Some [VStr sample_arn; VObj [("Ref", VStr "OtherLayer")]].
Proof.
  destruct (completed_run
              (addLayer (answering None) prepending_service "hello" configured_function))
    as (funcDef' & log & H); [vm_compute; reflexivity|].
  exists funcDef', log. split; [exact H|].
  apply (new_layer_placement (answering None) prepending_service "hello"
           configured_function funcDef' log sample_arn).
  - vm_compute; reflexivity.
  - reflexivity.
  - intros runtime _. reflexivity.
  - exact H.
Defined.

(** Containing is enough.  When the resolved ARN is a string of ordinary
    characters and some string layer of the function contains it, say the
    same layer at version 91 for an ARN that ends in version 9, a
    completed run takes the layer as present and leaves the layers as they
    were. *)
Theorem layer_containing_arn_counts
    (lookup : string -> value -> exchange) (sls : Serverless)
    (funcName : string) (funcDef funcDef' : FuncDef) (log : list log_line)
    (arn layer : string) :
  plain arn = true ->
  In (VStr layer) (default [] (fd_layers funcDef)) ->
  includes arn layer = true ->
  (forall runtime,
     effective_runtime sls funcDef = VStr runtime ->
     resolve lookup sls runtime = Resolved (VStr arn)) ->
  addLayer lookup sls funcName funcDef = Some (Completed, funcDef', log) ->
  fd_layers funcDef' = fd_layers funcDef.
Proof.
  intros Hplain Hin Hinc Hres H.
  apply addLayer_completed_inv in H
    as (runtime & arn' & already & _ & _ & Hrt & _ & _ & Hres' & Hi).
  rewrite (Hres runtime Hrt) in Hres'. injection Hres' as <-.
  apply instrument_inv in Hi as (found & handler' & pkg' & Hf & -> & _ & _ & ->).
  cbn [pattern_of] in Hf. rewrite (newRelicLayers_plain _ _ Hplain) in Hf.
  injection Hf as <-.
  rewrite (filter_keeps (layer_includes arn) (VStr layer) _ Hin Hinc). reflexivity.
Qed.

Lemma layer_containing_arn_counts_witness :
  exists funcDef' log,
    addLayer (answering None) sample_service "hello" later_layer_function
      = Some (Completed, funcDef', log)
    /\ fd_layers funcDef'
       = Some [VStr "arn:aws:lambda:us-east-1:554407330061:layer:MainlandLayer:91"].
Proof.
  destruct (completed_run
              (addLayer (answering None) sample_service "hello" later_layer_function))
    as (funcDef' & log & H); [vm_compute; reflexivity|].
  exists funcDef', log. split; [exact H|].
  apply (layer_containing_arn_counts (answering None) sample_service "hello"
           later_layer_function funcDef' log sample_arn
           "arn:aws:lambda:us-east-1:554407330061:layer:MainlandLayer:91").
  - vm_compute; reflexivity.
  - left. reflexivity.
  - vm_compute; reflexivity.
  - intros runtime _. reflexivity.
  - exact H.
Defined.

Lemma forEach_addLayer_override l1 l2 sls :
  truthy (layerArn (config sls)) = true ->
  forall funcs, forEach_addLayer l1 sls funcs = forEach_addLayer l2 sls funcs.
Proof.
  intros H funcs. induction funcs as [|[funcName funcDef] rest IH];
    cbn [forEach_addLayer]; [reflexivity|].
  rewrite IH. unfold addLayer, resolve. rewrite H. reflexivity.
Qed.

(** The override.  When [config.layerArn] is truthy the lookup service is
    never consulted: [addLayer] and [run] give the same result whatever the
    service would answer, and the ARN used is the configured value. *)
Theorem configured_arn_bypasses_lookup
    (l1 l2 : string -> value -> exchange) (sls : Serverless) :
  truthy (layerArn (config sls)) = true ->
  (forall runtime, resolve l1 sls runtime = Resolved (layerArn (config sls)))
  /\ (forall funcName funcDef,
        addLayer l1 sls funcName funcDef = addLayer l2 sls funcName funcDef)
  /\ run l1 sls = run l2 sls.
Proof.
  intros H. split; [|split].
  - intros runtime. unfold resolve. rewrite H. reflexivity.
  - intros funcName funcDef. unfold addLayer, resolve. rewrite H. reflexivity.
  - unfold run. destruct (functions sls); [reflexivity|].
    rewrite (forEach_addLayer_override l1 l2 sls H). reflexivity.
Qed.

Lemma configured_arn_bypasses_lookup_witness :
  run (fun _ _ => Failed) sample_service = run (answering (Some forbidden_body)) sample_service.
Proof.
  apply (configured_arn_bypasses_lookup (fun _ _ => Failed)
           (answering (Some forbidden_body)) sample_service).
  reflexivity.
Defined.

(** A failed lookup.  When every guard passes, no ARN is configured, and
    the lookup request fails or its body does not parse, [addLayer] rejects
    with that error after its first log line and the definition is
    untouched: no layer, no environment, no handler change. *)
Theorem failed_lookup_rejects
    (lookup : string -> value -> exchange) (sls : Serverless)
    (funcName : string) (funcDef : FuncDef) (runtime : string) :
  guards_pass sls funcName funcDef = true ->
  truthy (layerArn (config sls)) = false ->
  effective_runtime sls funcDef = VStr runtime ->
  (lookup runtime (region sls) = Failed ->
     addLayer lookup sls funcName funcDef
       = Some (Failure RequestError, funcDef, [LogAddingLayer funcName]))
  /\ (lookup runtime (region sls) = Replied None ->
     addLayer lookup sls funcName funcDef
       = Some (Failure SyntaxError, funcDef, [LogAddingLayer funcName])).
Proof.
  unfold guards_pass, effective_runtime, env_of. intros Hg Harn Hrt.
  rewrite Hrt in Hg.
  apply andb_true_iff in Hg as [Hg Hex]. apply andb_true_iff in Hg as [Hg Hsup].
  apply andb_true_iff in Hg as [Hreg Hacc].
  apply negb_true_iff in Hex, Hsup.
  assert (Hskip : negb (truthy (accountId (config sls)))
                  && negb (truthy (env_get (default ∅ (fd_environment funcDef))
                                     "NEW_RELIC_ACCOUNT_ID")) = false).
  { apply orb_true_iff in Hacc as [-> | ->]; [reflexivity|apply andb_false_r]. }
  split; intros Hl; unfold addLayer, resolve, getLayerArn;
    rewrite Hreg, Hskip, Hrt, Hsup, Hex, Harn, Hl; reflexivity.
Qed.

Lemma failed_lookup_rejects_witness :
  addLayer (answering None) lookup_service "hello" configured_function
    = Some (Failure SyntaxError, configured_function, [LogAddingLayer "hello"]).
Proof.
  apply (proj2 (failed_lookup_rejects (answering None) lookup_service "hello"
                  configured_function "python3.7" eq_refl eq_refl eq_refl)).
  reflexivity.
Defined.

(** A good lookup.  A response whose body has, under [Layers], an array
    whose first element has [LatestMatchingVersion.LayerVersionArn] makes
    [getLayerArn] resolve with that value, whatever else the body, the
    element and the version carry, provided the body has no key spelt like
    the whole path. *)
Theorem lookup_finds_arn
    (lookup : string -> value -> exchange) (runtime : string) (region arn : value)
    (more_versions more_layers more : list (string * value)) (other_layers : list value) :
  lookup runtime region
    = Replied (Some (layers_body arn more_versions more_layers other_layers more)) ->
  assoc layer_arn_path more = None ->
  getLayerArn lookup runtime region = Resolved arn.
Proof.
  intros Hl Hmore. unfold getLayerArn. rewrite Hl. cbn [getLayerArn_of].
  unfold JS.get, layers_body. cbn [nullish assoc]. 
  replace ("Layers" =? layer_arn_path) with false by reflexivity.
  rewrite Hmore. reflexivity.
Qed.

Lemma lookup_finds_arn_witness :
  getLayerArn
    (answering (Some (layers_body (VStr sample_arn) [("Version", VNum 9)] []
                        [] [("NextMarker", VNull)])))
    "nodejs12.x" (VStr "us-east-1")
  = Resolved (VStr sample_arn).
Proof.
  apply (lookup_finds_arn _ "nodejs12.x" (VStr "us-east-1") (VStr sample_arn)
           [("Version", VNum 9)] [] [("NextMarker", VNull)] []); reflexivity.
Defined.

End LayerAttachment.

(** ** [run] takes up every function *)

Section Dispatch.
Import Planner.







(** On that service the first function is instrumented and the second,
    which [config.exclude] lists, is skipped. *)
Example run_on_excluding_service :
  (fun r => match r.1 with
            | RunDispatched calls => map (fun c => (c.1.1, c.1.2)) calls
            | _ => []
            end) <$> run (answering None) excluding_service
  = Some [("hello", Completed); ("internal", Skipped)].
Proof. vm_compute. reflexivity. Qed.

End Dispatch.

(** ** Every outcome of one function's reconciliation *)

Section ReconcilerOutcomes.
Import Reconciler.

Lemma silent_one_shot (t : task) : silent t -> one_shot t.
Proof.
  intros H. induction H; try (constructor; auto); contradiction.
Qed.

Lemma one_shot_catch (t : task) : one_shot t -> one_shot (catch t log_provider_error).
Proof.
  intros H. induction H as [v|err|line k _ IH|c k Hk|child k Hc _ _ IHk]; cbn [catch].
  - constructor.
  - apply silent_one_shot, within_log_provider_error.
  - constructor. exact IH.
  - constructor. intros r. apply silent_catch, Hk.
  - constructor; [exact Hc|exact IHk].
Qed.

Lemma one_shot_bind (t : task) (f : value -> task) :
  one_shot t -> (forall v, silent (f v)) -> one_shot (bind t f).
Proof.
  intros H Hf. induction H as [v|err|line k _ IH|c k Hk|child k Hc _ _ IHk]; cbn [bind].
  - apply silent_one_shot, Hf.
  - constructor.
  - constructor. exact IH.
  - constructor. intros r. apply within_bind; [apply Hk|exact Hf].
  - constructor; [exact Hc|exact IHk].
Qed.

Lemma one_shot_fork_each {A} (f : A -> task) (xs : list A) (k : task) :
  (forall x, one_shot (f x)) -> one_shot k -> one_shot (fork_each f xs k).
Proof.
  intros Hf Hk. induction xs as [|x xs IH]; cbn [fork_each]; [exact Hk|].
  constructor; [apply Hf|exact IH].
Qed.

Lemma one_shot_request (c : call) : one_shot (request c).
Proof. constructor. apply silent_settling. Qed.

Lemma one_shot_removeSubscriptionFilter name : one_shot (removeSubscriptionFilter name).
Proof. apply one_shot_catch, one_shot_request. Qed.

Lemma one_shot_addSubscriptionFilter name arn : one_shot (addSubscriptionFilter name arn).
Proof. apply one_shot_catch, one_shot_request. Qed.

(** The [.then] callback on the filters never starts a chain: each call it
    issues is the last of its task. *)
Lemma one_shot_reconcile name arn res : one_shot (reconcile name arn res).
Proof.
  unfold reconcile. destruct res; try constructor.
  destruct (filter_by "filterName" _ _ _) as [existing|]; [|constructor].
  destruct (negb _); [|apply one_shot_addSubscriptionFilter].
  destruct (filter_by "filterPattern" _ _ _) as [stale|]; [|constructor].
  apply one_shot_fork_each; [intros; apply one_shot_removeSubscriptionFilter|].
  apply one_shot_fork_each; [intros; apply one_shot_addSubscriptionFilter|constructor].
Qed.

Lemma run_sync_one_shot (t : task) :
  one_shot t ->
  forall s, pending_within (fun _ => False) s ->
            pending_within (fun _ => False) (run_sync t s).
Proof.
  intros H. induction H as [v|err|line k _ IH|c k Hk|child k _ IHc _ IHk];
    intros s Hs; cbn [run_sync].
  - exact Hs.
  - exact Hs.
  - apply IH. exact Hs.
  - unfold pending_within. cbn [pending]. apply Forall_app. split; [exact Hs|].
    constructor; [exact Hk|constructor].
  - apply IHk, IHc, Hs.
Qed.

(** After a one-shot task, the calls of an execution are those it issued
    at once. *)
Lemma exec_one_shot (t : task) (s : state) (schedule : list (nat * response)) :
  one_shot t -> pending s = [] ->
  issued (trace (exec schedule (run_sync t s)))
  = (issued (trace s) ++ sync_calls t)%list.
Proof.
  intros Ht Hs.
  destruct (exec_silent schedule (run_sync t s)) as (rest & -> & Hrest).
  - apply run_sync_one_shot; [exact Ht|]. unfold pending_within. rewrite Hs. constructor.
  - rewrite issued_app, Hrest, app_nil_r. apply run_sync_sync_calls.
Qed.

Lemma sync_calls_silent (t : task) : silent t -> sync_calls t = [].
Proof.
  intros H. induction H as [v|err|line k _ IH|c k Hc|child k _ IHc _ IHk];
    cbn [sync_calls]; auto; [contradiction|].
  rewrite IHc, IHk. reflexivity.
Qed.

(** An error handler adds no call of its own. *)
Lemma sync_calls_catch (t : task) :
  sync_calls (catch t log_provider_error) = sync_calls t.
Proof.
  induction t as [v|err|line k IH|c k _|child _ k IHk]; cbn [catch sync_calls]; auto.
  - apply sync_calls_silent, within_log_provider_error.
  - rewrite IHk. reflexivity.
Qed.

Lemma exec_idle (schedule : list (nat * response)) (s : state) :
  pending s = [] -> exec schedule s = s.
Proof.
  intros Hs. induction schedule as [|[id r] schedule IH]; cbn [exec fold_left];
    [reflexivity|].
  unfold settle at 2. rewrite Hs. cbn [take_pending]. exact IH.
Qed.

Lemma log_provider_error_message (err : value) :
  provider_error err ->
  log_provider_error err = Emit (LogProviderError (message_of err)) (Ret VUndefined).
Proof.
  intros [He Hp]. unfold log_provider_error, read, message_of. rewrite He, Hp. reflexivity.
Qed.

Lemma flat_map_const {A B} (b : B) (xs : list A) :
  flat_map (fun _ => [b]) xs = repeat b (length xs).
Proof. induction xs as [|x xs IH]; cbn; [reflexivity|]. rewrite IH. reflexivity. Qed.

(** The calls of one function's reconciliation once the filters are known:
    the three lookups, then what the [.then] callback issues at once. *)
Lemma ensure_issued name found arn filters schedule :
  issued (trace (exec (answers found arn filters ++ schedule)
                      (start (ensureLogStreamFilter name))))
  = ([GetFunction (name_value name); GetFunction (VStr ingestion_function);
      DescribeSubscriptionFilters (log_group name)]
     ++ sync_calls (reconcile name arn (VArr filters)))%list.
Proof.
  rewrite exec_app, exec_answers, exec_one_shot.
  - rewrite !sync_calls_catch. reflexivity.
  - do 3 apply one_shot_catch. apply one_shot_reconcile.
  - reflexivity.
Qed.

Lemma reconcile_calls name arn filters existing stale :
  filter_by "filterName" reserved_name true filters = Some existing ->
  existing <> [] ->
  filter_by "filterPattern" expected_pattern false existing = Some stale ->
  sync_calls (reconcile name arn (VArr filters))
  = (repeat (DeleteSubscriptionFilter reserved_name (log_group name)) (length stale)
     ++ repeat (PutSubscriptionFilter arn reserved_name expected_pattern (log_group name))
          (length stale))%list.
Proof.
  intros He Hne Hs. unfold reconcile. rewrite He.
  destruct existing as [|e existing]; [contradiction|].
  cbn [length Nat.eqb negb]. rewrite Hs.
  rewrite !sync_calls_fork_each. cbn [sync_calls]. rewrite app_nil_r.
  change (fun _ : value => sync_calls (removeSubscriptionFilter name))
    with (fun _ : value => [DeleteSubscriptionFilter reserved_name (log_group name)]).
  change (fun _ : value => sync_calls (addSubscriptionFilter name arn))
    with (fun _ : value =>
            [PutSubscriptionFilter arn reserved_name expected_pattern (log_group name)]).
  rewrite !flat_map_const. reflexivity.
Qed.

(** Stale filters, however many.  When the log group holds filters named
    "NewRelicLogStreaming", the reconciliation issues, after its three
    lookups, one delete per filter whose pattern is not
    "NR_LAMBDA_MONITORING", all of them first, then as many puts, and in
    every execution nothing else. *)
Theorem stale_filters_replaced
    (name : option string) (found arn : value) (filters existing stale : list value)
    (schedule : list (nat * response)) :
  filter_by "filterName" reserved_name true filters = Some existing ->
  existing <> [] ->
  filter_by "filterPattern" expected_pattern false existing = Some stale ->
  issued (trace (exec (answers found arn filters ++ schedule)
                      (start (ensureLogStreamFilter name))))
  = ([GetFunction (name_value name); GetFunction (VStr ingestion_function);
      DescribeSubscriptionFilters (log_group name)]
     ++ repeat (DeleteSubscriptionFilter "NewRelicLogStreaming" (log_group name))
          (length stale)
     ++ repeat (PutSubscriptionFilter arn "NewRelicLogStreaming" "NR_LAMBDA_MONITORING"
                  (log_group name))
          (length stale))%list.
Proof.
  intros He Hne Hs. rewrite ensure_issued, (reconcile_calls _ _ _ _ _ He Hne Hs).
  reflexivity.
Qed.

Lemma stale_filters_replaced_witness :
  issued (trace (exec (answers (VObj []) ingestion_arn
                         [old_filter; other_filter; current_filter; old_filter]
                       ++ [(4%nat, Threw not_found_error)])
                      (start (ensureLogStreamFilter sample_name))))
  = [GetFunction (VStr "svc-dev-hello"); GetFunction (VStr "newrelic-log-ingestion");
     DescribeSubscriptionFilters "/aws/lambda/svc-dev-hello";
     DeleteSubscriptionFilter "NewRelicLogStreaming" "/aws/lambda/svc-dev-hello";
     DeleteSubscriptionFilter "NewRelicLogStreaming" "/aws/lambda/svc-dev-hello";
     PutSubscriptionFilter ingestion_arn "NewRelicLogStreaming" "NR_LAMBDA_MONITORING"
                           "/aws/lambda/svc-dev-hello";
     PutSubscriptionFilter ingestion_arn "NewRelicLogStreaming" "NR_LAMBDA_MONITORING"
                           "/aws/lambda/svc-dev-hello"].
Proof.
  apply (stale_filters_replaced sample_name (VObj []) ingestion_arn
           [old_filter; other_filter; current_filter; old_filter]
           [old_filter; current_filter; old_filter] [old_filter; old_filter]
           [(4%nat, Threw not_found_error)]);
    [reflexivity|discriminate|reflexivity].
Defined.

(** An up-to-date filter.  When the log group holds filters named
    "NewRelicLogStreaming" and each has the pattern "NR_LAMBDA_MONITORING",
    the reconciliation stops after its three lookups: no put, no delete, in
    any execution. *)
Theorem current_filter_left_alone
    (name : option string) (found arn : value) (filters existing : list value)
    (schedule : list (nat * response)) :
  filter_by "filterName" reserved_name true filters = Some existing ->
  existing <> [] ->
  filter_by "filterPattern" expected_pattern false existing = Some [] ->
  issued (trace (exec (answers found arn filters ++ schedule)
                      (start (ensureLogStreamFilter name))))
  = [GetFunction (name_value name); GetFunction (VStr ingestion_function);
     DescribeSubscriptionFilters (log_group name)].
Proof.
  intros He Hne Hs. rewrite ensure_issued, (reconcile_calls _ _ _ _ _ He Hne Hs).
  reflexivity.
Qed.

Lemma current_filter_left_alone_witness :
  issued (trace (exec (answers (VObj []) ingestion_arn [other_filter; current_filter]
                       ++ [(3%nat, Fulfilled VUndefined)])
                      (start (ensureLogStreamFilter sample_name))))
  = [GetFunction (VStr "svc-dev-hello"); GetFunction (VStr "newrelic-log-ingestion");
     DescribeSubscriptionFilters "/aws/lambda/svc-dev-hello"].
Proof.
  apply (current_filter_left_alone sample_name (VObj []) ingestion_arn
           [other_filter; current_filter] [current_filter]
           [(3%nat, Fulfilled VUndefined)]);
    [reflexivity|discriminate|reflexivity].
Defined.

Lemma silent_log_provider_error err : one_shot (log_provider_error err).
Proof. apply silent_one_shot, within_log_provider_error. Qed.

(** A failed step ends the chain.  Whatever error the provider throws at
    the function lookup, at the ingestion lookup or at the describe call,
    and also when the ingestion function's answer has no [Configuration],
    the reconciliation of the function issues no further call in any
    execution: no describe, no put, no delete after the failure. *)
Theorem failed_step_ends_chain
    (name : option string) (found arn err answer : value)
    (schedule : list (nat * response)) :
  issued (trace (exec ((0%nat, Threw err) :: schedule)
                      (start (ensureLogStreamFilter name))))
    = [GetFunction (name_value name)]
  /\ issued (trace (exec ((0%nat, Fulfilled found) :: (1%nat, Threw err) :: schedule)
                         (start (ensureLogStreamFilter name))))
     = [GetFunction (name_value name); GetFunction (VStr ingestion_function)]
  /\ (nullish answer || nullish (get_prop answer "Configuration") = true ->
      issued (trace (exec ((0%nat, Fulfilled found) :: (1%nat, Fulfilled answer)
                          :: schedule)
                         (start (ensureLogStreamFilter name))))
      = [GetFunction (name_value name); GetFunction (VStr ingestion_function)])
  /\ issued (trace (exec ((0%nat, Fulfilled found)
                          :: (1%nat, Fulfilled (ingestion_response arn))
                          :: (2%nat, Threw err) :: schedule)
                         (start (ensureLogStreamFilter name))))
     = [GetFunction (name_value name); GetFunction (VStr ingestion_function);
        DescribeSubscriptionFilters (log_group name)].
Proof.
  repeat split.
  - change (exec (_ :: schedule) _) with
      (exec schedule
         (run_sync (log_provider_error err)
            (mkState 1 [] [Issued 0 (GetFunction (name_value name));
                           Settled 0 (Threw err)]))).
    rewrite exec_one_shot; [|apply silent_log_provider_error|reflexivity].
    rewrite sync_calls_silent by apply within_log_provider_error. reflexivity.
  - change (exec (_ :: _ :: schedule) _) with
      (exec schedule
         (run_sync (catch (log_provider_error err) log_provider_error)
            (mkState 2 [] [Issued 0 (GetFunction (name_value name));
                           Settled 0 (Fulfilled found);
                           Issued 1 (GetFunction (VStr ingestion_function));
                           Settled 1 (Threw err)]))).
    rewrite exec_one_shot;
      [|apply one_shot_catch, silent_log_provider_error|reflexivity].
    rewrite sync_calls_catch, sync_calls_silent by apply within_log_provider_error.
    reflexivity.
  - intros Hbad.
    change (exec (_ :: _ :: schedule) _) with
      (exec schedule
         (run_sync
            (catch (catch (read answer "Configuration" (fun configuration =>
                             read configuration "FunctionArn" (fun destinationArn =>
                             describeSubscriptionFilters name destinationArn)))
                          log_provider_error) log_provider_error)
            (mkState 2 [] [Issued 0 (GetFunction (name_value name));
                           Settled 0 (Fulfilled found);
                           Issued 1 (GetFunction (VStr ingestion_function));
                           Settled 1 (Fulfilled answer)]))).
    assert (Hraise : read answer "Configuration" (fun configuration =>
                       read configuration "FunctionArn" (fun destinationArn =>
                       describeSubscriptionFilters name destinationArn))
                     = Raise type_error).
    { unfold read. destruct (nullish answer); [reflexivity|].
      cbn [orb] in Hbad. rewrite Hbad. reflexivity. }
    rewrite Hraise. cbn [catch].
    rewrite exec_one_shot;
      [|apply one_shot_catch, silent_log_provider_error|reflexivity].
    rewrite sync_calls_catch, sync_calls_silent by apply within_log_provider_error.
    reflexivity.
  - change (exec (_ :: _ :: _ :: schedule) _) with
      (exec schedule
         (run_sync (catch (catch (log_provider_error err) log_provider_error)
                          log_provider_error)
            (mkState 3 [] [Issued 0 (GetFunction (name_value name));
                           Settled 0 (Fulfilled found);
                           Issued 1 (GetFunction (VStr ingestion_function));
                           Settled 1 (Fulfilled (ingestion_response arn));
                           Issued 2 (DescribeSubscriptionFilters (log_group name));
                           Settled 2 (Threw err)]))).
    rewrite exec_one_shot;
      [|do 2 apply one_shot_catch; apply silent_log_provider_error|reflexivity].
    rewrite !sync_calls_catch, sync_calls_silent by apply within_log_provider_error.
    reflexivity.
Qed.

Lemma failed_step_ends_chain_witness :
  issued (trace (exec [(0%nat, Fulfilled (VObj [])); (1%nat, Fulfilled (VObj []));
                       (2%nat, Fulfilled (VArr []))]
                      (start (ensureLogStreamFilter sample_name))))
  = [GetFunction (VStr "svc-dev-hello"); GetFunction (VStr "newrelic-log-ingestion")].
Proof.
  apply (proj1 (proj2 (proj2
    (failed_step_ends_chain sample_name (VObj []) VUndefined VUndefined (VObj [])
       [(2%nat, Fulfilled (VArr []))])))).
  reflexivity.
Defined.

(** A provider error is logged, once.  When the provider rejects the
    function lookup, the describe call, a delete or a put with an error
    that carries a [providerError], the plugin logs that error's message,
    one line, and the failure goes no further: the trace ends there, with
    no unhandled rejection. *)
Theorem provider_error_logged_once
    (name : option string) (found arn err : value) (schedule : list (nat * response)) :
  provider_error err ->
  trace (exec ((0%nat, Threw err) :: schedule) (start (ensureLogStreamFilter name)))
    = [Issued 0 (GetFunction (name_value name)); Settled 0 (Threw err);
       Logged (LogProviderError (message_of err))]
  /\ trace (exec ((0%nat, Fulfilled found) :: (1%nat, Fulfilled (ingestion_response arn))
                  :: (2%nat, Threw err) :: schedule)
                 (start (ensureLogStreamFilter name)))
     = [Issued 0 (GetFunction (name_value name)); Settled 0 (Fulfilled found);
        Issued 1 (GetFunction (VStr ingestion_function));
        Settled 1 (Fulfilled (ingestion_response arn));
        Issued 2 (DescribeSubscriptionFilters (log_group name)); Settled 2 (Threw err);
        Logged (LogProviderError (message_of err))]
  /\ trace (exec ((0%nat, Threw err) :: schedule) (start (removeSubscriptionFilter name)))
     = [Issued 0 (DeleteSubscriptionFilter "NewRelicLogStreaming" (log_group name));
        Settled 0 (Threw err); Logged (LogProviderError (message_of err))]
  /\ trace (exec ((0%nat, Threw err) :: schedule) (start (addSubscriptionFilter name arn)))
     = [Issued 0 (PutSubscriptionFilter arn "NewRelicLogStreaming"
                    "NR_LAMBDA_MONITORING" (log_group name));
        Settled 0 (Threw err); Logged (LogProviderError (message_of err))].
Proof.
  intros Herr. pose proof (log_provider_error_message err Herr) as Hlog.
  repeat split.
  - change (exec (_ :: schedule) _) with
      (exec schedule
         (run_sync (log_provider_error err)
            (mkState 1 [] [Issued 0 (GetFunction (name_value name));
                           Settled 0 (Threw err)]))).
    rewrite Hlog. rewrite exec_idle; reflexivity.
  - change (exec (_ :: _ :: _ :: schedule) _) with
      (exec schedule
         (run_sync (catch (catch (log_provider_error err) log_provider_error)
                          log_provider_error)
            (mkState 3 [] [Issued 0 (GetFunction (name_value name));
                           Settled 0 (Fulfilled found);
                           Issued 1 (GetFunction (VStr ingestion_function));
                           Settled 1 (Fulfilled (ingestion_response arn));
                           Issued 2 (DescribeSubscriptionFilters (log_group name));
                           Settled 2 (Threw err)]))).
    rewrite Hlog. rewrite exec_idle; reflexivity.
  - change (exec (_ :: schedule) _) with
      (exec schedule
         (run_sync (log_provider_error err)
            (mkState 1 []
               [Issued 0 (DeleteSubscriptionFilter reserved_name (log_group name));
                Settled 0 (Threw err)]))).
    rewrite Hlog. rewrite exec_idle; reflexivity.
  - change (exec (_ :: schedule) _) with
      (exec schedule
         (run_sync (log_provider_error err)
            (mkState 1 []
               [Issued 0 (PutSubscriptionFilter arn reserved_name expected_pattern
                            (log_group name));
                Settled 0 (Threw err)]))).
    rewrite Hlog. rewrite exec_idle; reflexivity.
Qed.

Lemma provider_error_logged_once_witness :
  trace (exec [(0%nat, Threw not_found_error)]
              (start (removeSubscriptionFilter sample_name)))
  = [Issued 0 (DeleteSubscriptionFilter "NewRelicLogStreaming" "/aws/lambda/svc-dev-hello");
     Settled 0 (Threw not_found_error);
     Logged (LogProviderError
               (VStr "The specified subscription filter does not exist."))].
Proof.
  apply (proj1 (proj2 (proj2
    (provider_error_logged_once sample_name VUndefined VUndefined not_found_error []
       (conj eq_refl eq_refl))))).
Defined.

(** An answer that is not an array.  When the describe call is answered
    with anything but an array, an object that holds the filters under a
    key included, [res.filter] throws: the reconciliation issues no put and
    no delete, logs nothing, and ends in an unhandled rejection, since the
    error handlers read [providerError.message] of an error that has no
    [providerError]. *)
Theorem non_array_answer_unhandled
    (name : option string) (found arn res : value) (schedule : list (nat * response)) :
  isArray res = false ->
  trace (exec ((0%nat, Fulfilled found) :: (1%nat, Fulfilled (ingestion_response arn))
               :: (2%nat, Fulfilled res) :: schedule)
              (start (ensureLogStreamFilter name)))
  = [Issued 0 (GetFunction (name_value name)); Settled 0 (Fulfilled found);
     Issued 1 (GetFunction (VStr ingestion_function));
     Settled 1 (Fulfilled (ingestion_response arn));
     Issued 2 (DescribeSubscriptionFilters (log_group name)); Settled 2 (Fulfilled res);
     Unhandled type_error].
Proof.
  intros Hres.
  change (exec (_ :: _ :: _ :: schedule) _) with
    (exec schedule
       (run_sync (catch (catch (catch (reconcile name arn res) log_provider_error)
                               log_provider_error) log_provider_error)
          (mkState 3 [] [Issued 0 (GetFunction (name_value name));
                         Settled 0 (Fulfilled found);
                         Issued 1 (GetFunction (VStr ingestion_function));
                         Settled 1 (Fulfilled (ingestion_response arn));
                         Issued 2 (DescribeSubscriptionFilters (log_group name));
                         Settled 2 (Fulfilled res)]))).
  destruct res; try discriminate Hres; rewrite exec_idle; reflexivity.
Qed.

Lemma non_array_answer_unhandled_witness :
  trace (exec [(0%nat, Fulfilled (VObj [])); (1%nat, Fulfilled (ingestion_response ingestion_arn));
               (2%nat, Fulfilled sdk_describe_response)]
              (start (ensureLogStreamFilter sample_name)))
  = [Issued 0 (GetFunction (VStr "svc-dev-hello")); Settled 0 (Fulfilled (VObj []));
     Issued 1 (GetFunction (VStr "newrelic-log-ingestion"));
     Settled 1 (Fulfilled (ingestion_response ingestion_arn));
     Issued 2 (DescribeSubscriptionFilters "/aws/lambda/svc-dev-hello");
     Settled 2 (Fulfilled sdk_describe_response);
     Unhandled type_error].
Proof.
  apply (non_array_answer_unhandled sample_name (VObj []) ingestion_arn
           sdk_describe_response []).
  reflexivity.
Defined.

End ReconcilerOutcomes.

(** ** The drivers over the whole service *)

Section WholeService.
Import Reconciler.

Lemma one_shot_removeLogStreamFilters (sls : Serverless) :
  one_shot (removeLogStreamFilters sls).
Proof.
  unfold removeLogStreamFilters, with_functions.
  destruct (functions sls) as [|p funcs]; [constructor|].
  apply one_shot_fork_each; [|constructor].
  intros [funcName funcDef]. constructor.
  apply one_shot_bind; [apply one_shot_removeSubscriptionFilter|constructor].
Qed.

(** Teardown.  In every execution, whatever the provider answers,
    [removeLogStreamFilters] issues exactly one call per function of the
    service, in the order of the function table: the delete of the filter
    named "NewRelicLogStreaming" on that function's log group.  It looks
    nothing up first and issues nothing after. *)
Theorem teardown_one_delete_each (sls : Serverless) (schedule : list (nat * response)) :
  issued (trace (exec schedule (start (removeLogStreamFilters sls))))
  = map (fun p => DeleteSubscriptionFilter "NewRelicLogStreaming"
                    (log_group (fd_name p.2)))
        (functions sls).
Proof.
  unfold start. rewrite exec_one_shot;
    [|apply one_shot_removeLogStreamFilters|reflexivity].
  change (issued (trace initial)) with (@nil call). rewrite app_nil_l.
  unfold removeLogStreamFilters, with_functions.
  destruct (functions sls) as [|p funcs] eqn:E; [reflexivity|].
  rewrite sync_calls_fork_each. cbn [sync_calls]. rewrite app_nil_r.
  generalize (p :: funcs). clear E p funcs.
  induction l as [|[funcName funcDef] l IH]; cbn [flat_map map fst snd]; [reflexivity|].
  rewrite IH. reflexivity.
Qed.

(** A service without functions.  The getter [this.functions] throws on an
    empty function table, so each driver ends in a [TypeError] there:
    [run], once past its two gates, and both filter drivers, which issue no
    call and log nothing. *)
Theorem no_functions_type_error
    (lookup : string -> value -> Planner.exchange) (sls : Serverless)
    (schedule : list (nat * response)) :
  functions sls = [] ->
  (lt_1_34_0 (version sls) = false ->
   Planner.webpack_after (default [] (plugins sls)) = false ->
   Planner.run lookup sls
     = Some (Planner.RunThrew Planner.TypeError,
             [Planner.LogPlugins (default [] (plugins sls))]))
  /\ trace (exec schedule (start (addLogStreamFilters sls))) = [Unhandled type_error]
  /\ trace (exec schedule (start (removeLogStreamFilters sls))) = [Unhandled type_error].
Proof.
  intros He. repeat split.
  - intros Hv Hw. unfold Planner.run. rewrite Hv, Hw, He. reflexivity.
  - unfold start, addLogStreamFilters, with_functions. rewrite He.
    rewrite exec_idle; reflexivity.
  - unfold start, removeLogStreamFilters, with_functions. rewrite He.
    rewrite exec_idle; reflexivity.
Qed.

Lemma no_functions_type_error_witness :
  trace (exec [(0%nat, Fulfilled VUndefined)] (start (addLogStreamFilters latest_service)))
    = [Unhandled type_error].
Proof.
  apply (proj1 (proj2 (no_functions_type_error (answering None) latest_service
                         [(0%nat, Fulfilled VUndefined)] eq_refl))).
Defined.

End WholeService.

(** ** The enterprise flag *)

Section EnterpriseFlag.
Import Planner.

(** [getHandlerWrapper] reads [serverless.enterpriseEnabled] only for the
    runtime "nodejs10.x", which the list before it already covers: the flag
    changes nothing, for any runtime and handler. *)
Theorem enterprise_flag_changes_nothing
    (enterprise enterprise' : value) (runtime : string) (handler : value) :
  getHandlerWrapper enterprise runtime handler
  = getHandlerWrapper enterprise' runtime handler.
Proof.
  unfold getHandlerWrapper.
  destruct (String.eqb_spec runtime "nodejs10.x") as [->|_]; [reflexivity|].
  cbn [andb]. reflexivity.
Qed.

End EnterpriseFlag.
